(** * Route plausibility resolution of the adsb.lol API

    A shallow embedding of [get_route_for_callsign_lat_lng] and
    [api_routeset] from [src/adsb_api/app.py], together with the Python
    values they manipulate, and the properties of the route resolver and of
    the batch resolver. *)

From Stdlib Require Import ZArith NArith List String Ascii Bool Lia.
From Stdlib Require Import Decimal DecimalString DecimalPos.
Import ListNotations.
Open Scope string_scope.
Open Scope Z_scope.

Set Implicit Arguments.

(** ** Python values *)

(** A Python [float]: a signed dyadic number, an infinity or a NaN.
    [FFinite neg m e] stands for [(-1)^neg * m * 2^e]. *)
Inductive pyfloat : Type :=
| FFinite (neg : bool) (m : N) (e : Z)
| FInf (neg : bool)
| FNan.

(** The values a record of the store is made of: the JSON values, that
    is [None], booleans, numbers, text, lists of values, and dicts from
    text keys to values.  A [dict] keeps its keys in insertion order, so
    it is an association list.  Tuples and dicts with keys that are not
    text are no JSON values and are outside this type.  Text is kept as
    its UTF-8 bytes. *)
#[warnings="-register-all"]
Inductive pyval : Type :=
| VNone
| VBool (b : bool)
| VInt (z : Z)
| VFloat (f : pyfloat)
| VStr (s : string)
| VList (l : list pyval)
| VDict (d : list (string * pyval)).

Definition pydict : Type := list (string * pyval).

(** The exceptions the resolver can meet.  [External] is whatever the store
    or the oracle raise themselves. *)
Inductive exn : Type :=
| KeyError (k : pyval)
| IndexError
| TypeError
| ValueError
| OverflowError
| External (msg : string).

(** [d[k]] *)
Fixpoint dict_get (k : string) (d : pydict) : option pyval :=
  match d with
  | [] => None
  | (k', v) :: d' => if String.eqb k k' then Some v else dict_get k d'
  end.

(** [d[k] = v]: an existing key keeps its place, a new one goes last. *)
Fixpoint dict_set (k : string) (v : pyval) (d : pydict) : pydict :=
  match d with
  | [] => [(k, v)]
  | (k', v') :: d' =>
      if String.eqb k k' then (k', v) :: d' else (k', v') :: dict_set k v d'
  end.

Definition dict_keys (d : pydict) : list string := map fst d.

(** [d[k]] as an expression: a missing key raises [KeyError]. *)
Definition getitem (d : pydict) (k : string) : exn + pyval :=
  match dict_get k d with
  | Some v => inr v
  | None => inl (KeyError (VStr k))
  end.

(** [v[k]] for a string key [k] on an arbitrary value. *)
Definition subscript_str (v : pyval) (k : string) : exn + pyval :=
  match v with
  | VDict d => getitem d k
  | _ => inl TypeError
  end.

(** A byte [10xxxxxx] continues the character begun before it. *)
Definition is_continuation (c : ascii) : bool :=
  let n := N_of_ascii c in ((128 <=? n) && (n <? 192))%N.

Definition continues (s : string) : bool :=
  match s with
  | String c _ => is_continuation c
  | EmptyString => false
  end.

(** The characters (code points) of a text, each as its own bytes. *)
Fixpoint characters (s : string) : list string :=
  match s with
  | EmptyString => []
  | String c s' =>
      match characters s' with
      | ch :: rest =>
          if continues ch then String c ch :: rest
          else String c EmptyString :: ch :: rest
      | [] => [String c EmptyString]
      end
  end.

(** [len(v)]: the entries of a list or dict, the characters of a text. *)
Definition py_len (v : pyval) : exn + Z :=
  match v with
  | VList l => inr (Z.of_nat (List.length l))
  | VDict d => inr (Z.of_nat (List.length d))
  | VStr s => inr (Z.of_nat (List.length (characters s)))
  | _ => inl TypeError
  end.

(** [v[i]] for an integer index [i >= 0]. *)
Definition subscript_int (v : pyval) (i : Z) : exn + pyval :=
  match v with
  | VList l =>
      match nth_error l (Z.to_nat i) with
      | Some x => inr x
      | None => inl IndexError
      end
  | VStr s =>
      match nth_error (characters s) (Z.to_nat i) with
      | Some ch => inr (VStr ch)
      | None => inl IndexError
      end
  | VDict _ => inl (KeyError (VInt i))
  | _ => inl TypeError
  end.

(** [v != s] for a string literal [s]: values of another type differ. *)
Definition ne_str (v : pyval) (s : string) : bool :=
  match v with
  | VStr s' => negb (String.eqb s' s)
  | _ => true
  end.

(** ** The format specification [.5f] *)

(** Nearest integer to [num / den], ties to the even one. *)
Definition round_half_even (num den : N) : N :=
  let q := (num / den)%N in
  let r := (num mod den)%N in
  match (2 * r ?= den)%N with
  | Lt => q
  | Gt => (q + 1)%N
  | Eq => if N.even q then q else (q + 1)%N
  end.

(** [|x| * 10^5] rounded to an integer, for [x = m * 2^e]. *)
Definition scaled5 (m : N) (e : Z) : N :=
  match e with
  | Zneg p => round_half_even (m * 100000) (2 ^ Npos p)
  | _ => (m * 100000 * 2 ^ Z.to_N e)%N
  end.

Definition digit_char (d : N) : ascii :=
  ascii_of_N (48 + d mod 10).

(** The five digits of [r < 10^5], zero padded. *)
Definition frac5 (r : N) : string :=
  String (digit_char (r / 10000))
    (String (digit_char (r / 1000))
       (String (digit_char (r / 100))
          (String (digit_char (r / 10))
             (String (digit_char r) EmptyString)))).

Definition decimal_of_N (n : N) : string :=
  NilEmpty.string_of_uint (N.to_uint n).

(** [f"{x:.5f}"] for a float [x]. *)
Definition format_5f (x : pyfloat) : string :=
  match x with
  | FFinite neg m e =>
      let q := scaled5 m e in
      (if neg then "-" else "")
        ++ decimal_of_N (q / 100000) ++ "." ++ frac5 (q mod 100000)
  | FInf neg => if neg then "-inf" else "inf"
  | FNan => "nan"
  end.

(** [float(z)] for an [int]: the nearest double, ties to even. *)
Definition float_of_int (z : Z) : exn + pyfloat :=
  let n := Z.abs_N z in
  let bits := N.size n in
  if (bits <=? 53)%N then inr (FFinite (z <? 0) n 0)
  else
    let sh := (bits - 53)%N in
    let m := round_half_even n (2 ^ sh) in
    if (2 ^ 1024 <=? m * 2 ^ sh)%N then inl OverflowError
    else inr (FFinite (z <? 0) m (Z.of_N sh)).

(** [f"{v:.5f}"] for an arbitrary value: an [int] (and a [bool], which is
    one) is converted to a float first, the other types reject the format
    code. *)
Definition py_format_5f (v : pyval) : exn + string :=
  match v with
  | VFloat x => inr (format_5f x)
  | VInt z =>
      match float_of_int z with
      | inr x => inr (format_5f x)
      | inl e => inl e
      end
  | VBool b => inr (format_5f (FFinite false (if b then 1 else 0)%N 0))
  | VStr _ => inl ValueError
  | _ => inl TypeError
  end.

(** Whether [s] is a decimal numeral with exactly five fractional digits:
    an optional sign, at least one digit, a point, five digits. *)
Definition is_digit (c : ascii) : bool :=
  let n := N_of_ascii c in ((48 <=? n) && (n <=? 57))%N.

Fixpoint all_digits (s : string) : bool :=
  match s with
  | EmptyString => true
  | String c s' => is_digit c && all_digits s'
  end.

Fixpoint split_point (s : string) : option (string * string) :=
  match s with
  | EmptyString => None
  | String c s' =>
      if Ascii.eqb c "."%char then Some (EmptyString, s')
      else match split_point s' with
           | Some (i, f) => Some (String c i, f)
           | None => None
           end
  end.

Definition strip_sign (s : string) : string :=
  match s with
  | String c s' => if Ascii.eqb c "-"%char then s' else s
  | EmptyString => s
  end.

Definition five_fraction_digits (s : string) : bool :=
  match split_point (strip_sign s) with
  | Some (i, f) =>
      negb (String.length i =? 0)%nat && all_digits i
      && (String.length f =? 5)%nat && all_digits f
  | None => false
  end.

(** A coordinate is a number: not a NaN and not an infinity. *)
Definition is_number (v : pyval) : bool :=
  match v with
  | VFloat (FFinite _ _ _) => true
  | VFloat _ => false
  | VInt _ | VBool _ => true
  | _ => false
  end.

(** ** Requests, responses and the trace *)

(** Modelled from the spec: [Plane] and [PlaneList] of
    [adsb_api.utils.models], a batch request being an ordered list of
    [(callsign, lat, lng)] triples carried as text. *)
Record Plane : Type := mkPlane {
  callsign : string;
  lat : string;
  lng : string
}.

Record PlaneList : Type := mkPlaneList {
  planes : list Plane
}.

(** The six positional arguments of one call of [plausible]. *)
Record check_args : Type := mkArgs {
  pos_lat : string;
  pos_lng : string;
  a_lat : string;
  a_lon : string;
  b_lat : string;
  b_lon : string
}.

(** What [print] writes, with the interpolated values kept as data. *)
Inductive message : Type :=
| MsgPlaneList (p : PlaneList)
| MsgCallsign (callsign : string)
| MsgChecking (iataA iataB : pyval)
| MsgImplausible (lat lng : string) (distance : pyval)
| MsgOk.

(** Everything a resolution does to the outside, in order. *)
Inductive event : Type :=
| EFetch (callsign : string)
| EOracle (args : check_args)
| EPrint (m : message).

(** [PrettyJSONResponse(content=..., headers=...)] *)
Record Response (A : Type) : Type := mkResponse {
  content : A;
  headers : list (string * string)
}.

(** ** Computations: a trace, an exception, or a loop cut short *)

Inductive outcome (A : Type) : Type :=
| Ret (a : A)
| Raise (e : exn)
| OutOfFuel.

Arguments Raise {A} e.
Arguments OutOfFuel {A}.

Definition M (A : Type) : Type := (outcome A * list event)%type.

Definition ret {A : Type} (a : A) : M A := (Ret a, []).

Definition bind {A B : Type} (m : M A) (f : A -> M B) : M B :=
  match m with
  | (Ret a, w) => let (r, w') := f a in (r, (w ++ w')%list)
  | (Raise e, w) => (Raise e, w)
  | (OutOfFuel, w) => (OutOfFuel, w)
  end.

Definition emit (ev : event) : M unit := (Ret tt, [ev]).

Definition lift {A : Type} (x : exn + A) : M A :=
  match x with
  | inr a => ret a
  | inl e => (Raise e, [])
  end.

Definition result {A : Type} (m : M A) : outcome A := fst m.
Definition trace {A : Type} (m : M A) : list event := snd m.

Declare Scope py_scope.
Delimit Scope py_scope with py.
Notation "x <- m ;; k" := (bind m (fun x => k))
  (at level 61, m at next level, right associativity) : py_scope.
Notation "m ;;; k" := (bind m (fun _ => k))
  (at level 61, right associativity) : py_scope.
Open Scope py_scope.

(** The calls of the oracle a trace holds, in order. *)
Fixpoint oracle_calls (w : list event) : list check_args :=
  match w with
  | [] => []
  | EOracle c :: w' => c :: oracle_calls w'
  | _ :: w' => oracle_calls w'
  end.

(** ** The resolver *)

Section Resolver.

(** [redisVRS.get_route]: the store, a fixed function that may raise. *)
Variable get_route : string -> exn + pydict.

(** [adsb_api.utils.plausible.plausible]: the oracle, a fixed function
    from the six arguments to a verdict and a distance, that may raise. *)
Variable plausible : check_args -> exn + (bool * pyval).

Definition fetch (callsign : string) : M pydict :=
  match get_route callsign with
  | inr route => (Ret route, [EFetch callsign])
  | inl e => (Raise e, [EFetch callsign])
  end.

Definition call_plausible (args : check_args) : M (bool * pyval) :=
  match plausible args with
  | inr r => (Ret r, [EOracle args])
  | inl e => (Raise e, [EOracle args])
  end.

(** The argument list of the call, evaluated left to right. *)
Definition segment_args (lat lng : string) (airportA airportB : pyval)
  : exn + check_args :=
  match subscript_str airportA "lat" with inl e => inl e | inr la =>
  match py_format_5f la with inl e => inl e | inr sla =>
  match subscript_str airportA "lon" with inl e => inl e | inr lo =>
  match py_format_5f lo with inl e => inl e | inr slo =>
  match subscript_str airportB "lat" with inl e => inl e | inr lb =>
  match py_format_5f lb with inl e => inl e | inr slb =>
  match subscript_str airportB "lon" with inl e => inl e | inr lob =>
  match py_format_5f lob with inl e => inl e | inr slob =>
    inr (mkArgs lat lng sla slo slb slob)
  end end end end end end end end.

(** Lines 196-204: the trace line and the call for one pair. *)
Definition check_segment (lat lng : string) (airportA airportB : pyval)
  : M (bool * pyval) :=
  iataA <- lift (subscript_str airportA "iata") ;;
  iataB <- lift (subscript_str airportB "iata") ;;
  emit (EPrint (MsgChecking iataA iataB)) ;;;
  args <- lift (segment_args lat lng airportA airportB) ;;
  call_plausible args.

(** Lines 192-207: [while a < len(route["_airports"]) - 1: ...], one
    unit of [fuel] per evaluation of the condition. *)
Fixpoint while_segments (fuel : nat) (route : pydict) (lat lng : string)
  (a : Z) (is_plausible : bool) (distance : pyval) : M (bool * pyval) :=
  match fuel with
  | O => (OutOfFuel, [])
  | S fuel' =>
      airports <- lift (getitem route "_airports") ;;
      n <- lift (py_len airports) ;;
      if a <? n - 1 then
        let b := a + 1 in
        airports <- lift (getitem route "_airports") ;;
        airportA <- lift (subscript_int airports a) ;;
        airports <- lift (getitem route "_airports") ;;
        airportB <- lift (subscript_int airports b) ;;
        r <- check_segment lat lng airportA airportB ;;
        let '(is_plausible, distance) := r in
        if is_plausible : bool then ret (is_plausible, distance)
        else while_segments fuel' route lat lng b is_plausible distance
      else ret (is_plausible, distance)
  end.

(** The condition is evaluated once more than the body runs, and the body
    runs at most [len(route["_airports"]) - 1] times. *)
Definition loop_fuel (route : pydict) : nat :=
  match getitem route "_airports" with
  | inr v => match py_len v with
             | inr n => S (Z.to_nat n)
             | inl _ => 1
             end
  | inl _ => 1
  end.

Definition get_route_for_callsign_lat_lng (callsign lat lng : string)
  : M pydict :=
  route <- fetch callsign ;;
  codes <- lift (getitem route "airport_codes") ;;
  if ne_str codes "unknown" then
    emit (EPrint (MsgCallsign callsign)) ;;;
    r <- while_segments (loop_fuel route) route lat lng 0 false (VInt 0) ;;
    let '(is_plausible, distance) := r in
    (if negb is_plausible
     then emit (EPrint (MsgImplausible lat lng distance))
     else emit (EPrint MsgOk)) ;;;
    ret (dict_set "plausible" (VBool is_plausible) route)
  else ret route.

(** Lines 268-272: [for plane in planeList.planes: ...] *)
Fixpoint for_planes (ps : list Plane) (response : list pydict)
  : M (list pydict) :=
  match ps with
  | [] => ret response
  | plane :: ps' =>
      route <- get_route_for_callsign_lat_lng
                 (callsign plane) (lat plane) (lng plane) ;;
      for_planes ps' (response ++ [route])%list
  end.

Definition api_routeset (planeList : PlaneList)
  : M (Response (list pydict)) :=
  emit (EPrint (MsgPlaneList planeList)) ;;;
  response <- for_planes (planes planeList) [] ;;
  ret (mkResponse response [("Access-Control-Allow-Origin", "*")]).

(** The airport chain walked pair by pair: what the loop amounts to once
    [route["_airports"]] is a list. *)
Fixpoint walk (lat lng : string) (l : list pyval)
  (is_plausible : bool) (distance : pyval) : M (bool * pyval) :=
  match l with
  | airportA :: ((airportB :: _) as l') =>
      r <- check_segment lat lng airportA airportB ;;
      let '(is_plausible, distance) := r in
      if is_plausible : bool then ret (is_plausible, distance)
      else walk lat lng l' is_plausible distance
  | _ => ret (is_plausible, distance)
  end.

(** What a pair goes through before the oracle is called: both IATA
    codes are read for the trace line, then the arguments are built. *)
Definition prepared (lat lng : string) (airportA airportB : pyval)
  : exn + check_args :=
  match subscript_str airportA "iata" with inl e => inl e | inr _ =>
  match subscript_str airportB "iata" with inl e => inl e | inr _ =>
    segment_args lat lng airportA airportB
  end end.

(** The pair can be checked and the oracle answers [(p, d)] on it. *)
Definition oracle_says (lat lng : string) (airportA airportB : pyval)
  (p : bool) (d : pyval) : Prop :=
  exists c, prepared lat lng airportA airportB = inr c
            /\ plausible c = inr (p, d).

(** The walk as a relation: from a chain and the current verdict and
    distance to an outcome and the calls made on the way. *)
Inductive walked (lat lng : string)
  : list pyval -> bool -> pyval
    -> outcome (bool * pyval) -> list check_args -> Prop :=
| walked_end l p d :
    (List.length l < 2)%nat ->
    walked lat lng l p d (Ret (p, d)) []
| walked_unprepared A B l p d e :
    prepared lat lng A B = inl e ->
    walked lat lng (A :: B :: l) p d (Raise e) []
| walked_raise A B l p d c e :
    prepared lat lng A B = inr c ->
    plausible c = inl e ->
    walked lat lng (A :: B :: l) p d (Raise e) [c]
| walked_hit A B l p d c d' :
    prepared lat lng A B = inr c ->
    plausible c = inr (true, d') ->
    walked lat lng (A :: B :: l) p d (Ret (true, d')) [c]
| walked_miss A B l p d c d' r cs :
    prepared lat lng A B = inr c ->
    plausible c = inr (false, d') ->
    walked lat lng (B :: l) false d' r cs ->
    walked lat lng (A :: B :: l) p d r (c :: cs).

Definition resolve_plane (plane : Plane) : M pydict :=
  get_route_for_callsign_lat_lng (callsign plane) (lat plane) (lng plane).

(** The records of the planes whose resolution returns one, in order. *)
Definition resolved_records (ps : list Plane) : list pydict :=
  flat_map (fun q => match result (resolve_plane q) with
                     | Ret r => [r]
                     | _ => []
                     end) ps.

(** Lines 223-235: the single-item endpoint with a position. *)
Definition api_route3 (callsign lat lng : string) : M (Response pydict) :=
  route <- get_route_for_callsign_lat_lng callsign lat lng ;;
  ret (mkResponse route [("Access-Control-Allow-Origin", "*")]).

(** Lines 244-252: the single-item endpoint without a position. *)
Definition api_route (callsign : string) : M (Response pydict) :=
  route <- fetch callsign ;;
  ret (mkResponse route [("Access-Control-Allow-Origin", "*")]).

End Resolver.

(** ** Sample data: the routes of the specification's examples, a
    two-airport route and a single-airport one *)

Definition airport (icao iata : string) (la lo : pyfloat) : pyval :=
  VDict [("icao", VStr icao); ("iata", VStr iata);
         ("lat", VFloat la); ("lon", VFloat lo)].

Definition deg (n : N) : pyfloat := FFinite false n 0.

Definition airportA : pyval := airport "AAAA" "AAA" (deg 10) (deg 20).
Definition airportB : pyval := airport "BBBB" "BBB" (deg 11) (deg 21).
Definition airportC : pyval := airport "CCCC" "CCC" (deg 12) (deg 22).

Definition route1 : pydict :=
  [("callsign", VStr "CALLSIGN1"); ("airport_codes", VStr "AAAA-BBBB-CCCC");
   ("_airports", VList [airportA; airportB; airportC])].

Definition route2 : pydict :=
  [("callsign", VStr "CALLSIGN2"); ("airport_codes", VStr "unknown");
   ("_airports", VList [])].

Definition route3 : pydict :=
  [("callsign", VStr "CALLSIGN3"); ("airport_codes", VStr "AAAA-BBBB");
   ("_airports", VList [airportA; airportB])].

Definition route4 : pydict :=
  [("callsign", VStr "CALLSIGN4"); ("airport_codes", VStr "AAAA");
   ("_airports", VList [airportA])].

Definition sample_store (callsign : string) : exn + pydict :=
  if String.eqb callsign "CALLSIGN1" then inr route1
  else if String.eqb callsign "CALLSIGN2" then inr route2
  else if String.eqb callsign "CALLSIGN3" then inr route3
  else if String.eqb callsign "CALLSIGN4" then inr route4
  else inl (External "store unavailable").

(** A-B is off the position by 150, B-C is on it at 2; a position that is
    not a number is rejected. *)
Definition sample_oracle (c : check_args) : exn + (bool * pyval) :=
  if String.eqb (pos_lat c) "x" then inl ValueError
  else if String.eqb (a_lat c) "10.00000" then inr (false, VInt 150)
  else inr (true, VInt 2).

(** The arguments of the call for the pair A-B. *)
Definition call_AB (lat lng : string) : check_args :=
  mkArgs lat lng "10.00000" "20.00000" "11.00000" "21.00000".

(** A batch of known and unknown routes, and one whose second item makes
    the oracle raise. *)
Definition mixed_batch : PlaneList :=
  mkPlaneList [mkPlane "CALLSIGN1" "1" "2"; mkPlane "CALLSIGN2" "1" "2";
               mkPlane "CALLSIGN3" "1" "2"].

Definition failing_batch : PlaneList :=
  mkPlaneList [mkPlane "CALLSIGN2" "1" "2"; mkPlane "CALLSIGN1" "x" "2";
               mkPlane "CALLSIGN3" "1" "2"].

(** The callsigns a trace fetches from the store, in order. *)
Fixpoint fetches (w : list event) : list string :=
  match w with
  | [] => []
  | EFetch c :: w' => c :: fetches w'
  | _ :: w' => fetches w'
  end.

(** [k in d] *)
Definition has_key (k : string) (d : pydict) : bool :=
  existsb (String.eqb k) (dict_keys d).

(** The rational [m * 2^e] as a fraction of naturals. *)
Definition dyadic_num (m : N) (e : Z) : N :=
  match e with
  | Zneg _ => m
  | _ => (m * 2 ^ Z.to_N e)%N
  end.

Definition dyadic_den (e : Z) : N :=
  match e with
  | Zneg p => (2 ^ Npos p)%N
  | _ => 1%N
  end.

(** [q] is the integer nearest to [m * 2^e * 10^5], the even one when
    two are equally near. *)
Definition nearest_hundred_thousandths (m : N) (e : Z) (q : N) : Prop :=
  (2 * (q * dyadic_den e)
   <= 2 * (dyadic_num m e * 100000) + dyadic_den e)%N
  /\ (2 * (dyadic_num m e * 100000)
      <= 2 * (q * dyadic_den e) + dyadic_den e)%N
  /\ ((2 * (q * dyadic_den e)
        = 2 * (dyadic_num m e * 100000) + dyadic_den e
        \/ 2 * (dyadic_num m e * 100000)
           = 2 * (q * dyadic_den e) + dyadic_den e)%N ->
       N.even q = true).

(** What the oracle is handed for a coordinate [v]: the text [s] that
    [.5f] renders it to.  For a number that text has five fractional
    digits; for a finite float it is the sign and the digits of the
    nearest integer of hundred-thousandths; a NaN and the infinities come
    out as words. *)
Definition coordinate_text (v : pyval) (s : string) : Prop :=
  py_format_5f v = inr s
  /\ (is_number v = true -> five_fraction_digits s = true)
  /\ (forall neg m e, v = VFloat (FFinite neg m e) ->
        exists q, nearest_hundred_thousandths m e q
                  /\ s = (if neg then "-" else "")
                           ++ decimal_of_N (q / 100000) ++ "."
                           ++ frac5 (q mod 100000))
  /\ (v = VFloat FNan -> s = "nan")
  /\ (forall neg, v = VFloat (FInf neg) ->
        s = if neg then "-inf" else "inf").

(** More sample data: an airport record without coordinates, a chain that
    ends in one, a chain with junk after its second airport, a record whose
    [_airports] is text, and a store that hands out a record already
    carrying a verdict among its keys. *)
Definition airportNoLat : pyval :=
  VDict [("icao", VStr "DDDD"); ("iata", VStr "DDD")].

Definition route5 : pydict :=
  [("callsign", VStr "CALLSIGN5"); ("airport_codes", VStr "AAAA-BBBB-DDDD");
   ("_airports", VList [airportA; airportB; airportNoLat])].

Definition route6 : pydict :=
  [("callsign", VStr "CALLSIGN6"); ("airport_codes", VStr "BBBB-CCCC-?");
   ("_airports", VList [airportB; airportC; VNone])].

Definition route7 : pydict :=
  [("callsign", VStr "CALLSIGN7"); ("airport_codes", VStr "AAAA-BBBB");
   ("_airports", VStr "AAAA-BBBB")].

Definition route8 : pydict :=
  [("callsign", VStr "CALLSIGN8"); ("airport_codes", VStr "AAAA-BBBB")].

Definition route9 : pydict :=
  [("callsign", VStr "CALLSIGN9"); ("_airports", VList [])].

Definition sample_store2 (callsign : string) : exn + pydict :=
  if String.eqb callsign "CALLSIGN5" then inr route5
  else if String.eqb callsign "CALLSIGN6" then inr route6
  else if String.eqb callsign "CALLSIGN7" then inr route7
  else if String.eqb callsign "CALLSIGN8" then inr route8
  else if String.eqb callsign "CALLSIGN9" then inr route9
  else sample_store callsign.

Definition route3_stale : pydict :=
  [("callsign", VStr "CALLSIGN3"); ("plausible", VBool true);
   ("airport_codes", VStr "AAAA-BBBB");
   ("_airports", VList [airportA; airportB])].

Definition stale_store (callsign : string) : exn + pydict :=
  if String.eqb callsign "CALLSIGN3" then inr route3_stale
  else sample_store callsign.

(** Two airports with coordinates that are no whole degrees (51.4775,
    -0.461389 and 40.639751, -73.778925 as doubles), and one whose
    latitude is a NaN. *)
Definition airportLHR : pyval :=
  airport "EGLL" "LHR" (FFinite false 7244814056811397 (-47))
    (FFinite true 8311645313891383 (-54)).

Definition airportJFK : pyval :=
  airport "KJFK" "JFK" (FFinite false 5719536483125929 (-47))
    (FFinite true 5191730299028059 (-46)).

Definition airportNaN : pyval := airport "NNNN" "NNN" FNan (deg 5).

Definition route10 : pydict :=
  [("callsign", VStr "CALLSIGN10"); ("airport_codes", VStr "AAAA-NNNN");
   ("_airports", VList [airportA; airportNaN])].

Definition route11 : pydict :=
  [("callsign", VStr "CALLSIGN11"); ("airport_codes", VStr "EGLL-KJFK");
   ("_airports", VList [airportLHR; airportJFK])].

Definition sample_store3 (callsign : string) : exn + pydict :=
  if String.eqb callsign "CALLSIGN10" then inr route10
  else if String.eqb callsign "CALLSIGN11" then inr route11
  else sample_store2 callsign.

Definition call_LHR_JFK (lat lng : string) : check_args :=
  mkArgs lat lng "51.47750" "-0.46139" "40.63975" "-73.77893".

Definition call_A_NaN (lat lng : string) : check_args :=
  mkArgs lat lng "10.00000" "20.00000" "nan" "5.00000".

(** The text of the one character U+20AC, three bytes in UTF-8, and a
    record whose [_airports] is that text. *)
Definition euro : string :=
  String "226" (String "130" (String "172" EmptyString)).

Definition route12 : pydict :=
  [("callsign", VStr "CALLSIGN12"); ("airport_codes", VStr "AAAA-BBBB");
   ("_airports", VStr euro)].

Definition text_store (callsign : string) : exn + pydict :=
  if String.eqb callsign "CALLSIGN12" then inr route12
  else sample_store3 callsign.

(** The arguments of the call for the pair B-C. *)
Definition call_BC (lat lng : string) : check_args :=
  mkArgs lat lng "11.00000" "21.00000" "12.00000" "22.00000".

(** ** Properties *)

(** The double nearest to 51.4775 is 0x4049BD1EB851EB85. *)
Example format_5f_lhr :
  format_5f (FFinite false 7244814056811397 (-47)) = "51.47750".
Proof. vm_compute. reflexivity. Qed.

Example format_5f_neg_zero : format_5f (FFinite true 0 0) = "-0.00000".
Proof. reflexivity. Qed.

Example format_5f_tie_even :
  format_5f (FFinite false 1 (-6)) = "0.01562"
  /\ format_5f (FFinite false 3 (-6)) = "0.04688".
Proof. split; vm_compute; reflexivity. Qed.

Example format_5f_int : py_format_5f (VInt (-12)) = inr "-12.00000".
Proof. vm_compute. reflexivity. Qed.

Example format_5f_nan : five_fraction_digits (format_5f FNan) = false.
Proof. reflexivity. Qed.

Example resolve_callsign1 :
  get_route_for_callsign_lat_lng sample_store sample_oracle "CALLSIGN1" "1" "2"
  = (Ret (route1 ++ [("plausible", VBool true)])%list,
     [EFetch "CALLSIGN1";
      EPrint (MsgCallsign "CALLSIGN1");
      EPrint (MsgChecking (VStr "AAA") (VStr "BBB"));
      EOracle (mkArgs "1" "2" "10.00000" "20.00000" "11.00000" "21.00000");
      EPrint (MsgChecking (VStr "BBB") (VStr "CCC"));
      EOracle (mkArgs "1" "2" "11.00000" "21.00000" "12.00000" "22.00000");
      EPrint MsgOk]).
Proof. vm_compute. reflexivity. Qed.

Example resolve_callsign2 :
  get_route_for_callsign_lat_lng sample_store sample_oracle "CALLSIGN2" "1" "2"
  = (Ret route2, [EFetch "CALLSIGN2"]).
Proof. vm_compute. reflexivity. Qed.

(** *** Dictionaries *)

Lemma dict_get_set_same (k : string) (v : pyval) (d : pydict) :
  dict_get k (dict_set k v d) = Some v.
Proof.
  induction d as [|[k' v'] d IH]; simpl.
  - now rewrite String.eqb_refl.
  - destruct (String.eqb k k') eqn:E; simpl; rewrite E; auto.
Qed.

Lemma dict_get_set_other (k k' : string) (v : pyval) (d : pydict) :
  k' <> k -> dict_get k' (dict_set k v d) = dict_get k' d.
Proof.
  intros Hne.
  induction d as [|[k0 v0] d IH]; simpl.
  - destruct (String.eqb_spec k' k); congruence.
  - destruct (String.eqb_spec k k0) as [->|Hk]; simpl.
    + destruct (String.eqb_spec k' k0); congruence.
    + now rewrite IH.
Qed.

Lemma getitem_inr (d : pydict) (k : string) (v : pyval) :
  getitem d k = inr v <-> dict_get k d = Some v.
Proof.
  unfold getitem. destruct (dict_get k d); split; congruence.
Qed.

(** *** Computations *)

Lemma bind_ret (A B : Type) (a : A) (f : A -> M B) : bind (ret a) f = f a.
Proof. unfold bind, ret. now destruct (f a). Qed.

Lemma bind_lift_inr (A B : Type) (x : exn + A) (a : A) (f : A -> M B) :
  x = inr a -> bind (lift x) f = f a.
Proof. intros ->. apply bind_ret. Qed.

Lemma bind_lift_inl (A B : Type) (x : exn + A) (e : exn) (f : A -> M B) :
  x = inl e -> bind (lift x) f = (Raise e, []).
Proof. now intros ->. Qed.

Lemma result_bind (A B : Type) (m : M A) (f : A -> M B) :
  result (bind m f)
  = match result m with
    | Ret a => result (f a)
    | Raise e => Raise e
    | OutOfFuel => OutOfFuel
    end.
Proof.
  destruct m as [[a|e|] w]; simpl; auto. now destruct (f a).
Qed.

Lemma trace_bind (A B : Type) (m : M A) (f : A -> M B) :
  trace (bind m f)
  = match result m with
    | Ret a => (trace m ++ trace (f a))%list
    | _ => trace m
    end.
Proof.
  destruct m as [[a|e|] w]; simpl; auto. now destruct (f a).
Qed.

Lemma oracle_calls_app (w1 w2 : list event) :
  oracle_calls (w1 ++ w2) = (oracle_calls w1 ++ oracle_calls w2)%list.
Proof.
  induction w1 as [|[c|c|m] w1 IH]; simpl; auto. now rewrite IH.
Qed.

Lemma skipn_nth_error (A : Type) (n : nat) (l : list A) (x : A) :
  nth_error l n = Some x -> skipn n l = x :: skipn (S n) l.
Proof.
  revert l. induction n as [|n IH]; intros [|y l] H; simpl in *;
    try discriminate.
  - now inversion H.
  - now apply IH.
Qed.

(** *** Five fractional digits *)

Lemma is_digit_digit_char (d : N) : is_digit (digit_char d) = true.
Proof.
  unfold is_digit, digit_char.
  assert (H : (d mod 10 < 10)%N) by (apply N.mod_upper_bound; discriminate).
  set (x := (d mod 10)%N) in *. clearbody x.
  cbv zeta. rewrite N_ascii_embedding by lia.
  apply andb_true_iff. split; apply N.leb_le; lia.
Qed.

Lemma frac5_digits (r : N) :
  String.length (frac5 r) = 5%nat /\ all_digits (frac5 r) = true.
Proof.
  split; [reflexivity|].
  unfold frac5. cbn [all_digits]. now rewrite !is_digit_digit_char.
Qed.

Lemma string_of_uint_digits (u : uint) :
  all_digits (NilEmpty.string_of_uint u) = true.
Proof. induction u; cbn; auto. Qed.

Lemma decimal_of_N_digits (n : N) :
  exists c s, decimal_of_N n = String c s
              /\ is_digit c = true /\ all_digits s = true.
Proof.
  unfold decimal_of_N.
  pose proof (string_of_uint_digits (N.to_uint n)) as Hd.
  assert (Hn : N.to_uint n <> Nil).
  { destruct n as [|q]; [discriminate|].
    apply DecimalPos.Unsigned.to_uint_nonnil. }
  destruct (N.to_uint n) as [|u|u|u|u|u|u|u|u|u|u]; [congruence|..];
    cbn in Hd |- *; eauto.
Qed.

Lemma is_digit_not_point (c : ascii) :
  is_digit c = true -> Ascii.eqb c "." = false /\ Ascii.eqb c "-" = false.
Proof.
  intros H. split.
  - destruct (Ascii.eqb_spec c "."); [subst; discriminate | reflexivity].
  - destruct (Ascii.eqb_spec c "-"); [subst; discriminate | reflexivity].
Qed.

Lemma split_point_digits (i f : string) :
  all_digits i = true ->
  split_point (i ++ String "." f) = Some (i, f).
Proof.
  induction i as [|c i IH]; cbn; [reflexivity|].
  intros H. apply andb_true_iff in H as [Hc Hi].
  destruct (is_digit_not_point c Hc) as [-> _].
  now rewrite (IH Hi).
Qed.

Lemma format_5f_finite_digits (neg : bool) (m : N) (e : Z) :
  five_fraction_digits (format_5f (FFinite neg m e)) = true.
Proof.
  unfold format_5f, five_fraction_digits.
  set (q := scaled5 m e).
  destruct (decimal_of_N_digits (q / 100000)) as (c & i & Hi & Hc & Hd).
  destruct (frac5_digits (q mod 100000)) as [Hlen Hf].
  assert (Hs : strip_sign ((if neg then "-" else "")
                           ++ decimal_of_N (q / 100000) ++ "."
                           ++ frac5 (q mod 100000))
               = String c i ++ String "." (frac5 (q mod 100000))).
  { rewrite Hi. destruct neg; cbn; [reflexivity|].
    now destruct (is_digit_not_point c Hc) as [_ ->]. }
  rewrite Hs, split_point_digits by (cbn; now rewrite Hc, Hd).
  cbn [String.length Nat.eqb negb andb all_digits].
  now rewrite Hc, Hd, Hlen, Hf.
Qed.

Lemma float_of_int_finite (z : Z) (x : pyfloat) :
  float_of_int z = inr x -> exists neg m e, x = FFinite neg m e.
Proof.
  unfold float_of_int.
  destruct (N.size (Z.abs_N z) <=? 53)%N; [intros [= <-]; eauto|].
  match goal with |- context [if ?b then _ else _] => destruct b end;
    [discriminate | intros [= <-]; eauto].
Qed.

Lemma py_format_5f_digits (v : pyval) (s : string) :
  py_format_5f v = inr s -> is_number v = true ->
  five_fraction_digits s = true.
Proof.
  intros Hs Hn.
  assert (H : exists neg m e, s = format_5f (FFinite neg m e)).
  { destruct v as [|b|z|x|t|l|d]; cbn [py_format_5f is_number] in *;
      try discriminate.
    - do 3 eexists. symmetry. eapply (f_equal (fun x => match x with
                                                      | inr t => t
                                                      | inl _ => s
                                                      end) Hs).
    - destruct (float_of_int z) as [e|x] eqn:E; [discriminate|].
      destruct (float_of_int_finite _ E) as (neg & m & e & ->).
      exists neg, m, e. congruence.
    - destruct x as [neg m e| |]; try discriminate.
      exists neg, m, e. congruence. }
  destruct H as (neg & m & e & ->). apply format_5f_finite_digits.
Qed.

Lemma segment_args_inv (lat lng : string) (A B : pyval) (c : check_args) :
  segment_args lat lng A B = inr c ->
  pos_lat c = lat /\ pos_lng c = lng
  /\ exists la lo lb lob,
       subscript_str A "lat" = inr la /\ py_format_5f la = inr (a_lat c)
       /\ subscript_str A "lon" = inr lo /\ py_format_5f lo = inr (a_lon c)
       /\ subscript_str B "lat" = inr lb /\ py_format_5f lb = inr (b_lat c)
       /\ subscript_str B "lon" = inr lob /\ py_format_5f lob = inr (b_lon c).
Proof.
  unfold segment_args.
  destruct (subscript_str A "lat") as [|la]; [discriminate|].
  destruct (py_format_5f la) as [|sla] eqn:E1; [discriminate|].
  destruct (subscript_str A "lon") as [|lo]; [discriminate|].
  destruct (py_format_5f lo) as [|slo] eqn:E2; [discriminate|].
  destruct (subscript_str B "lat") as [|lb]; [discriminate|].
  destruct (py_format_5f lb) as [|slb] eqn:E3; [discriminate|].
  destruct (subscript_str B "lon") as [|lob]; [discriminate|].
  destruct (py_format_5f lob) as [|slob] eqn:E4; [discriminate|].
  intros [= <-]. cbn. repeat split.
  exists la, lo, lb, lob. repeat split; assumption.
Qed.

Section Properties.

Variable get_route : string -> exn + pydict.
Variable plausible : check_args -> exn + (bool * pyval).

Local Abbreviation resolve :=
  (get_route_for_callsign_lat_lng get_route plausible).

(** *** The loop walks the chain *)

Lemma walk_cons2 (lat lng : string) (x y : pyval) (l : list pyval)
  (p : bool) (d : pyval) :
  walk plausible lat lng (x :: y :: l) p d
  = (r <- check_segment plausible lat lng x y ;;
     let '(p', d') := r in
     if p' : bool then ret (p', d')
     else walk plausible lat lng (y :: l) p' d').
Proof. reflexivity. Qed.

Lemma while_segments_walk (route : pydict) (lat lng : string)
  (airports : list pyval) :
  getitem route "_airports" = inr (VList airports) ->
  forall (fuel : nat) (a : Z) (p : bool) (d : pyval),
    0 <= a ->
    (List.length (skipn (Z.to_nat a) airports) < fuel)%nat ->
    while_segments plausible fuel route lat lng a p d
    = walk plausible lat lng (skipn (Z.to_nat a) airports) p d.
Proof.
  intros Hget. induction fuel as [|fuel IH]; intros a p d Ha Hfuel; [lia|].
  cbn [while_segments].
  rewrite (bind_lift_inr _ Hget). cbn [py_len lift]. rewrite bind_ret.
  assert (Hlen : List.length (skipn (Z.to_nat a) airports)
                 = (List.length airports - Z.to_nat a)%nat)
    by apply length_skipn.
  destruct (Z.ltb_spec a (Z.of_nat (List.length airports) - 1)) as [Hlt|Hge].
  - destruct (nth_error airports (Z.to_nat a)) as [x|] eqn:Hx.
    2:{ apply nth_error_None in Hx. lia. }
    destruct (nth_error airports (Z.to_nat (a + 1))) as [y|] eqn:Hy.
    2:{ apply nth_error_None in Hy. lia. }
    rewrite (bind_lift_inr _ Hget). cbn [subscript_int]. rewrite Hx.
    cbn [lift]. rewrite bind_ret, (bind_lift_inr _ Hget).
    cbn [subscript_int]. rewrite Hy. cbn [lift]. rewrite bind_ret.
    replace (Z.to_nat (a + 1)) with (S (Z.to_nat a)) in * by lia.
    assert (Hrec : forall p' d',
      while_segments plausible fuel route lat lng (a + 1) p' d'
      = walk plausible lat lng (skipn (S (Z.to_nat a)) airports) p' d').
    { intros p' d'.
      replace (S (Z.to_nat a)) with (Z.to_nat (a + 1)) by lia.
      apply IH; [lia|].
      rewrite length_skipn. rewrite Hlen in Hfuel. lia. }
    rewrite (skipn_nth_error _ _ Hx).
    rewrite (skipn_nth_error _ _ Hy) in *.
    rewrite walk_cons2.
    destruct (check_segment plausible lat lng x y) as [[[p' d']|e|] w];
      simpl; auto.
    destruct p'; auto. now rewrite Hrec.
  - destruct (skipn (Z.to_nat a) airports) as [|x [|y l]] eqn:Hs;
      simpl in Hlen; try reflexivity. lia.
Qed.

(** *** One pair *)

Lemma prepared_segment_args (lat lng : string) (A B : pyval)
  (c : check_args) :
  prepared lat lng A B = inr c -> segment_args lat lng A B = inr c.
Proof.
  unfold prepared.
  destruct (subscript_str A "iata"); [discriminate|].
  now destruct (subscript_str B "iata").
Qed.

Lemma check_segment_unprepared (lat lng : string) (A B : pyval) (e : exn) :
  prepared lat lng A B = inl e ->
  result (check_segment plausible lat lng A B) = Raise e
  /\ oracle_calls (trace (check_segment plausible lat lng A B)) = [].
Proof.
  unfold prepared, check_segment.
  destruct (subscript_str A "iata") as [e1|ia]; [now intros [= ->]|].
  destruct (subscript_str B "iata") as [e2|ib]; [now intros [= ->]|].
  intros H. cbn [lift]. rewrite !bind_ret. rewrite H. now cbn.
Qed.

Lemma check_segment_prepared (lat lng : string) (A B : pyval)
  (c : check_args) :
  prepared lat lng A B = inr c ->
  result (check_segment plausible lat lng A B)
  = match plausible c with inr r => Ret r | inl e => Raise e end
  /\ oracle_calls (trace (check_segment plausible lat lng A B)) = [c].
Proof.
  unfold prepared, check_segment.
  destruct (subscript_str A "iata") as [e1|ia]; [discriminate|].
  destruct (subscript_str B "iata") as [e2|ib]; [discriminate|].
  intros H. cbn [lift]. rewrite !bind_ret. rewrite H.
  cbn. unfold call_plausible. destruct (plausible c); cbn; auto.
Qed.

(** *** The walk and its relation *)

Lemma walk_walked (lat lng : string) (l : list pyval) :
  forall (p : bool) (d : pyval),
    walked plausible lat lng l p d
      (result (walk plausible lat lng l p d))
      (oracle_calls (trace (walk plausible lat lng l p d))).
Proof.
  induction l as [|A l IH]; intros p d.
  - apply walked_end. simpl. lia.
  - destruct l as [|B l].
    + apply walked_end. simpl. lia.
    + rewrite walk_cons2, result_bind, trace_bind.
      destruct (prepared lat lng A B) as [e|c] eqn:Hp.
      * destruct (check_segment_unprepared _ _ _ _ Hp) as [Hr Hc].
        rewrite Hr, Hc. now apply walked_unprepared.
      * destruct (check_segment_prepared _ _ _ _ Hp) as [Hr Hc].
        rewrite Hr.
        destruct (plausible c) as [e|[[|] d']] eqn:Ho.
        -- rewrite Hc. now apply walked_raise.
        -- rewrite oracle_calls_app, Hc. cbn.
           now apply walked_hit.
        -- rewrite oracle_calls_app, Hc. cbn [app].
           eapply walked_miss; eauto.
Qed.

Lemma walked_returns (lat lng : string) (l : list pyval) (p : bool)
  (d : pyval) (r : outcome (bool * pyval)) (cs : list check_args) :
  walked plausible lat lng l p d r cs -> r <> OutOfFuel.
Proof. induction 1; auto; discriminate. Qed.

Lemma oracle_says_functional (lat lng : string) (A B : pyval)
  (p p' : bool) (d d' : pyval) :
  oracle_says plausible lat lng A B p d ->
  oracle_says plausible lat lng A B p' d' ->
  p = p' /\ d = d'.
Proof.
  intros (c & Hc & Ho) (c' & Hc' & Ho'). split; congruence.
Qed.

Section Walked.

Variables lat lng : string.

Local Abbreviation walked' := (walked plausible lat lng).

Lemma walked_length l p d r cs :
  walked' l p d r cs -> (List.length cs <= List.length l - 1)%nat.
Proof.
  induction 1; simpl in *; lia.
Qed.

Lemma walked_segments l p d r cs :
  walked' l p d r cs ->
  forall i c, nth_error cs i = Some c ->
    exists A B, nth_error l i = Some A /\ nth_error l (S i) = Some B
                /\ prepared lat lng A B = inr c.
Proof.
  induction 1 as [l p d Hl|A B l p d e Hp|A B l p d c e Hp Ho
                 |A B l p d c d' Hp Ho|A B l p d c d' r cs Hp Ho Hw IH];
    intros i c0 Hi.
  - now destruct i.
  - now destruct i.
  - destruct i as [|[|i]]; try discriminate.
    injection Hi as <-. now exists A, B.
  - destruct i as [|[|i]]; try discriminate.
    injection Hi as <-. now exists A, B.
  - destruct i as [|i].
    + injection Hi as <-. now exists A, B.
    + apply IH in Hi. exact Hi.
Qed.



Lemma walked_raises l p d r cs :
  walked' l p d r cs ->
  forall c e, In c cs -> plausible c = inl e -> r = Raise e.
Proof.
  induction 1 as [l p d Hl|A B l p d e Hp|A B l p d c e Hp Ho
                 |A B l p d c d0 Hp Ho|A B l p d c d0 r cs Hp Ho Hw IH];
    intros c0 e0 Hin Hc0; simpl in Hin.
  - contradiction.
  - contradiction.
  - destruct Hin as [<-|[]]. congruence.
  - destruct Hin as [<-|[]]. congruence.
  - destruct Hin as [<-|Hin]; [congruence | eauto].
Qed.

Lemma walked_returned l p d r cs :
  walked' l p d r cs ->
  forall p' d', r = Ret (p', d') ->
    (p' = true
     /\ exists c, nth_error cs (List.length cs - 1) = Some c
                  /\ plausible c = inr (true, d'))
    \/ (List.length cs = (List.length l - 1)%nat
        /\ (cs = [] -> p' = p /\ d' = d)
        /\ (cs <> [] -> p' = false)
        /\ forall c, In c cs -> exists d'', plausible c = inr (false, d'')).
Proof.
  induction 1 as [l p d Hl|A B l p d e Hp|A B l p d c e Hp Ho
                 |A B l p d c d0 Hp Ho|A B l p d c d0 r cs Hp Ho Hw IH];
    intros p' d' Hr; try discriminate.
  - injection Hr as <- <-. right. simpl.
    repeat split; try tauto; lia.
  - injection Hr as <- <-. left. split; [reflexivity|].
    exists c. now split.
  - destruct (IH p' d' Hr) as [(Hp' & c0 & Hn & Hc0)|(Hlen & He & Hne & Hall)].
    + left. split; [exact Hp'|]. exists c0. split; [|exact Hc0].
      assert (List.length cs <> 0)%nat
        by (intros E; rewrite E in Hn; destruct cs; discriminate).
      simpl. replace (List.length cs - 0)%nat
        with (S (List.length cs - 1)) by lia.
      exact Hn.
    + right. repeat split.
      * simpl in *. pose proof (walked_length Hw) as Hle. simpl in Hle.
        lia.
      * discriminate.
      * discriminate.
      * intros _. destruct cs as [|c1 cs'].
        -- now destruct (He eq_refl).
        -- apply Hne. discriminate.
      * intros c0 [<-|Hin]; [now exists d0 | now apply Hall].
Qed.

(** When the oracle finds every pair of the chain implausible the walk
    ends with the answer for the last pair. *)
Lemma walked_all_implausible l p d r cs :
  walked' l p d r cs ->
  (2 <= List.length l)%nat ->
  (forall i A B, nth_error l i = Some A -> nth_error l (S i) = Some B ->
     exists d', oracle_says plausible lat lng A B false d') ->
  exists A B d',
    nth_error l (List.length l - 2) = Some A
    /\ nth_error l (List.length l - 1) = Some B
    /\ oracle_says plausible lat lng A B false d'
    /\ r = Ret (false, d')
    /\ List.length cs = (List.length l - 1)%nat.
Proof.
  induction 1 as [l p d Hl|A B l p d e Hp|A B l p d c e Hp Ho
                 |A B l p d c d0 Hp Ho|A B l p d c d0 r cs Hp Ho Hw IH];
    intros Hlen Hall.
  - lia.
  - destruct (Hall 0%nat A B eq_refl eq_refl) as (d' & c' & Hc' & _).
    congruence.
  - destruct (Hall 0%nat A B eq_refl eq_refl) as (d' & c' & Hc' & Ho').
    congruence.
  - destruct (Hall 0%nat A B eq_refl eq_refl) as (d' & c' & Hc' & Ho').
    congruence.
  - destruct l as [|C l].
    + inversion Hw; subst. exists A, B, d0. simpl.
      repeat split; auto. now exists c.
    + destruct IH as (A' & B' & d' & HA & HB & Hs & Hr & Hcs).
      * simpl. lia.
      * intros i X Y HX HY. exact (Hall (S i) X Y HX HY).
      * exists A', B', d'. simpl in *.
        rewrite Nat.sub_0_r in *.
        repeat split; auto.
Qed.

End Walked.

(** *** The resolver unfolded *)

Lemma resolve_shape (callsign lat lng : string) :
  resolve callsign lat lng
  = match get_route callsign with
    | inl e => (Raise e, [EFetch callsign])
    | inr route =>
        match getitem route "airport_codes" with
        | inl e => (Raise e, [EFetch callsign])
        | inr codes =>
            if ne_str codes "unknown" then
              match while_segments plausible (loop_fuel route) route
                      lat lng 0 false (VInt 0) with
              | (Ret (p, d), w) =>
                  (Ret (dict_set "plausible" (VBool p) route),
                   EFetch callsign :: EPrint (MsgCallsign callsign)
                     :: w ++ [EPrint (if negb p
                                      then MsgImplausible lat lng d
                                      else MsgOk)])%list
              | (Raise e, w) =>
                  (Raise e,
                   EFetch callsign :: EPrint (MsgCallsign callsign) :: w)
              | (OutOfFuel, w) =>
                  (OutOfFuel,
                   EFetch callsign :: EPrint (MsgCallsign callsign) :: w)
              end
            else (Ret route, [EFetch callsign])
        end
    end.
Proof.
  unfold get_route_for_callsign_lat_lng, fetch.
  destruct (get_route callsign) as [e|route]; [reflexivity|].
  cbn [bind].
  destruct (getitem route "airport_codes") as [e|codes]; [reflexivity|].
  cbn [lift]. rewrite bind_ret.
  destruct (ne_str codes "unknown"); [|reflexivity].
  destruct (while_segments plausible (loop_fuel route) route lat lng 0
              false (VInt 0)) as [[[p d]|e|] w]; cbn; auto.
  destruct p; cbn; now rewrite ?app_nil_r.
Qed.

Lemma while_segments_not_list (route : pydict) (lat lng : string)
  (fuel : nat) (a : Z) (p : bool) (d : pyval) :
  (forall l, getitem route "_airports" <> inr (VList l)) ->
  let m := while_segments plausible (S fuel) route lat lng a p d in
  oracle_calls (trace m) = [] /\ result m <> OutOfFuel.
Proof.
  intros Hnl. cbn [while_segments].
  destruct (getitem route "_airports") as [e|v] eqn:E.
  - cbn. split; [reflexivity | discriminate].
  - destruct v as [| | | |s|l|dd];
      try (cbn; split; [reflexivity | discriminate]).
    + cbn [lift]. rewrite bind_ret. cbn [lift py_len]. rewrite bind_ret.
      match goal with |- context [a <? ?n] => destruct (a <? n) end;
        [|cbn; split; [reflexivity | discriminate]].
      rewrite bind_ret. cbn [subscript_int].
      destruct (nth_error (characters s) (Z.to_nat a));
        [|cbn; split; [reflexivity | discriminate]].
      cbn [lift]. rewrite !bind_ret. cbn [subscript_int].
      destruct (nth_error (characters s) (Z.to_nat (a + 1)));
        cbn; (split; [reflexivity | discriminate]).
    + now destruct (Hnl l).
    + cbn [lift]. rewrite bind_ret. cbn [lift py_len]. rewrite bind_ret.
      match goal with |- context [a <? ?n] => destruct (a <? n) end;
        cbn; (split; [reflexivity | discriminate]).
Qed.

Lemma loop_fuel_list (route : pydict) (airports : list pyval) :
  getitem route "_airports" = inr (VList airports) ->
  loop_fuel route = S (List.length airports).
Proof.
  unfold loop_fuel. intros ->. cbn. now rewrite Nat2Z.id.
Qed.

Lemma loop_is_walk (route : pydict) (lat lng : string)
  (airports : list pyval) :
  getitem route "_airports" = inr (VList airports) ->
  while_segments plausible (loop_fuel route) route lat lng 0 false (VInt 0)
  = walk plausible lat lng airports false (VInt 0).
Proof.
  intros H. rewrite (loop_fuel_list _ H).
  pose proof (@while_segments_walk route lat lng airports H
                (S (List.length airports)) 0 false (VInt 0)) as W.
  simpl in W. apply W; lia.
Qed.

Lemma resolve_cases (callsign lat lng : string) :
  let m := resolve callsign lat lng in
  (oracle_calls (trace m) = [] /\ result m <> OutOfFuel)
  \/ exists route codes airports,
       get_route callsign = inr route
       /\ getitem route "airport_codes" = inr codes
       /\ ne_str codes "unknown" = true
       /\ getitem route "_airports" = inr (VList airports)
       /\ m = (let w := walk plausible lat lng airports false (VInt 0) in
               match w with
               | (Ret (p, d), w) =>
                 (Ret (dict_set "plausible" (VBool p) route),
                  EFetch callsign :: EPrint (MsgCallsign callsign)
                    :: w ++ [EPrint (if negb p
                                     then MsgImplausible lat lng d
                                     else MsgOk)])%list
               | (Raise e, w) =>
                 (Raise e,
                  EFetch callsign :: EPrint (MsgCallsign callsign) :: w)
               | (OutOfFuel, w) =>
                 (OutOfFuel,
                  EFetch callsign :: EPrint (MsgCallsign callsign) :: w)
               end).
Proof.
  intros m. subst m. rewrite resolve_shape.
  destruct (get_route callsign) as [e|route] eqn:Hs.
  { left. cbn. split; [reflexivity | discriminate]. }
  destruct (getitem route "airport_codes") as [e|codes] eqn:Hc.
  { left. cbn. split; [reflexivity | discriminate]. }
  destruct (ne_str codes "unknown") eqn:Hk.
  2:{ left. cbn. split; [reflexivity | discriminate]. }
  destruct (getitem route "_airports") as [e|v] eqn:Ha.
  2: destruct v as [| | | | |airports|].
  7:{ right. exists route, codes, airports.
      rewrite (@loop_is_walk route lat lng airports Ha).
      repeat split; auto. }
  all: left.
  all: assert (Hnl : forall l, getitem route "_airports" <> inr (VList l))
      by (intros l; rewrite Ha; discriminate).
  all: assert (Hf : exists f, loop_fuel route = S f)
      by (unfold loop_fuel; rewrite Ha; cbn; eauto).
  all: destruct Hf as [fl ->].
  all: destruct (@while_segments_not_list route lat lng fl 0 false (VInt 0)
                   Hnl)
      as [Hc0 Hr0].
  all: destruct (while_segments plausible (S fl) route lat lng 0 false
                   (VInt 0)) as [[[p0 d0]|e'|] w0]; cbn in *.
  all: rewrite ?oracle_calls_app, ?Hc0; cbn.
  all: split; [reflexivity | congruence].
Qed.

Lemma resolve_returns (callsign lat lng : string) :
  result (resolve callsign lat lng) <> OutOfFuel.
Proof.
  destruct (resolve_cases callsign lat lng)
    as [[_ H]|(route & codes & airports & _ & _ & _ & _ & Hm)]; [exact H|].
  rewrite Hm.
  pose proof (walked_returns
                (walk_walked lat lng airports false (VInt 0))) as Hw.
  destruct (walk plausible lat lng airports false (VInt 0))
    as [[[p d]|e|] w]; cbn in *; congruence.
Qed.

(** *** The route resolver *)

(** C2: when the record the store returns for a callsign has
    [airport_codes] equal to "unknown", the resolution returns that very
    record (so with a [plausible] field only if the store had set one),
    the oracle is not called, and the only thing done is the fetch. *)
Theorem unknown_route_returned_unchanged
  (callsign lat lng : string) (route : pydict) :
  get_route callsign = inr route ->
  dict_get "airport_codes" route = Some (VStr "unknown") ->
  result (resolve callsign lat lng) = Ret route
  /\ oracle_calls (trace (resolve callsign lat lng)) = []
  /\ trace (resolve callsign lat lng) = [EFetch callsign].
Proof.
  intros Hs Hc. apply getitem_inr in Hc.
  rewrite resolve_shape, Hs, Hc. cbn. auto.
Qed.

(** C10: when the route is known ([airport_codes] is not "unknown") but
    its list of airports has fewer than two entries, the oracle is not
    called and the record comes back with [plausible] set to [False]. *)
Theorem short_chain_marked_implausible
  (callsign lat lng : string) (route : pydict) (codes : pyval)
  (airports : list pyval) :
  get_route callsign = inr route ->
  dict_get "airport_codes" route = Some codes ->
  ne_str codes "unknown" = true ->
  dict_get "_airports" route = Some (VList airports) ->
  (List.length airports < 2)%nat ->
  exists r,
    result (resolve callsign lat lng) = Ret r
    /\ r = dict_set "plausible" (VBool false) route
    /\ dict_get "plausible" r = Some (VBool false)
    /\ oracle_calls (trace (resolve callsign lat lng)) = [].
Proof.
  intros Hs Hc Hk Ha Hlen.
  apply getitem_inr in Hc. apply getitem_inr in Ha.
  exists (dict_set "plausible" (VBool false) route).
  rewrite resolve_shape, Hs, Hc, Hk, (@loop_is_walk route lat lng _ Ha).
  assert (Hw : walk plausible lat lng airports false (VInt 0)
               = ret (false, VInt 0)).
  { destruct airports as [|x [|y l]]; simpl in Hlen; try reflexivity. lia. }
  rewrite Hw. cbn. repeat split. apply dict_get_set_same.
Qed.

(** C7: if a call of the oracle made during a resolution raises, the
    resolution raises that same exception: it returns no record at all,
    so in particular none with [plausible] set to [False]. *)
Theorem oracle_failure_propagates
  (callsign lat lng : string) (c : check_args) (e : exn) :
  In c (oracle_calls (trace (resolve callsign lat lng))) ->
  plausible c = inl e ->
  result (resolve callsign lat lng) = Raise e
  /\ forall r, result (resolve callsign lat lng) <> Ret r.
Proof.
  intros Hin He.
  assert (H : result (resolve callsign lat lng) = Raise e).
  { destruct (resolve_cases callsign lat lng)
      as [[H0 _]|(route & codes & airports & _ & _ & _ & _ & Hm)].
    - rewrite H0 in Hin. contradiction.
    - rewrite Hm in Hin |- *.
      pose proof (walk_walked lat lng airports false (VInt 0)) as Hw.
      destruct (walk plausible lat lng airports false (VInt 0))
        as [[[p d]|e'|] w]; cbn in Hin, Hw |- *;
        rewrite ?oracle_calls_app in Hin; cbn in Hin;
        rewrite ?app_nil_r in Hin;
        pose proof (walked_raises Hw Hin He); congruence. }
  split; [exact H | intros r; rewrite H; discriminate].
Qed.

(** C8: the record a resolution returns is the record fetched from the
    store, or that record with [plausible] assigned; every other key,
    [_airports] with the airport records among them, keeps its value. *)
Theorem resolve_only_sets_plausible
  (callsign lat lng : string) (route r : pydict) :
  get_route callsign = inr route ->
  result (resolve callsign lat lng) = Ret r ->
  (r = route \/ exists b, r = dict_set "plausible" (VBool b) route)
  /\ (forall k, k <> "plausible" -> dict_get k r = dict_get k route)
  /\ dict_get "_airports" r = dict_get "_airports" route.
Proof.
  intros Hs Hr. rewrite resolve_shape, Hs in Hr.
  assert (H : r = route \/ exists b, r = dict_set "plausible" (VBool b) route).
  { destruct (getitem route "airport_codes") as [e|codes];
      [discriminate|].
    destruct (ne_str codes "unknown").
    - destruct (while_segments plausible (loop_fuel route) route lat lng 0
                  false (VInt 0)) as [[[p d]|e|] w]; try discriminate.
      injection Hr as <-. right. now exists p.
    - injection Hr as <-. now left. }
  split; [exact H|].
  assert (Hk : forall k, k <> "plausible" ->
                         dict_get k r = dict_get k route).
  { intros k Hk. destruct H as [->|[b ->]]; [reflexivity|].
    now apply dict_get_set_other. }
  split; [exact Hk | apply Hk; discriminate].
Qed.

(** C9: with the store and the oracle fixed functions, a second
    resolution of the same callsign and position right after the first
    returns the same record and leaves the same trace (the same fetch,
    the same calls, the same verdict and distance printed); a resolution
    that raises does so again, and none runs out of fuel. *)
Theorem resolve_twice_same (callsign lat lng : string) :
  let once := resolve callsign lat lng in
  let twice := (r1 <- resolve callsign lat lng ;;
                r2 <- resolve callsign lat lng ;;
                ret (r1, r2)) in
  match result once with
  | Ret r => result twice = Ret (r, r)
             /\ trace twice = (trace once ++ trace once)%list
  | Raise e => result twice = Raise e /\ trace twice = trace once
  | OutOfFuel => False
  end.
Proof.
  intros once twice. subst once twice.
  pose proof (resolve_returns callsign lat lng) as Hf.
  destruct (resolve callsign lat lng) as [[r|e|] w]; cbn in *.
  - now rewrite !app_nil_r.
  - auto.
  - congruence.
Qed.

(** A known route with a list of airports: the resolution is the walk of
    that list, between the fetch and the closing line of the trace. *)
Lemma resolve_known_walked
  (callsign lat lng : string) (route : pydict) (codes : pyval)
  (airports : list pyval) :
  get_route callsign = inr route ->
  dict_get "airport_codes" route = Some codes ->
  ne_str codes "unknown" = true ->
  dict_get "_airports" route = Some (VList airports) ->
  exists rw,
    walked plausible lat lng airports false (VInt 0) rw
      (oracle_calls (trace (resolve callsign lat lng)))
    /\ result (resolve callsign lat lng)
       = match rw with
         | Ret (p, _) => Ret (dict_set "plausible" (VBool p) route)
         | Raise e => Raise e
         | OutOfFuel => OutOfFuel
         end
    /\ forall p d, rw = Ret (p, d) ->
         exists w, trace (resolve callsign lat lng)
                   = (w ++ [EPrint (if negb p
                                    then MsgImplausible lat lng d
                                    else MsgOk)])%list.
Proof.
  intros Hs Hc Hk Ha.
  apply getitem_inr in Hc. apply getitem_inr in Ha.
  rewrite resolve_shape, Hs, Hc, Hk, (@loop_is_walk route lat lng _ Ha).
  pose proof (walk_walked lat lng airports false (VInt 0)) as Hw.
  destruct (walk plausible lat lng airports false (VInt 0))
    as [[[p d]|e|] w]; cbn in Hw |- *.
  - exists (Ret (p, d)). rewrite oracle_calls_app. cbn.
    rewrite app_nil_r. repeat split; auto.
    intros p' d' [= <- <-].
    now exists (EFetch callsign :: EPrint (MsgCallsign callsign) :: w).
  - exists (Raise e). repeat split; auto. discriminate.
  - exists OutOfFuel. repeat split; auto. discriminate.
Qed.

(** C4, as the code has it: for a known route with N >= 2 airports on
    which the oracle finds every pair implausible, the record returned
    has [plausible] set to [False] and otherwise the fields of the
    fetched record, so no distance is stored in it; the distance the
    oracle reported for the last pair, N-2 to N-1, is what the closing
    line of the trace prints. *)
Theorem last_distance_only_printed
  (callsign lat lng : string) (route : pydict) (codes : pyval)
  (airports : list pyval) (A B : pyval) (d_last : pyval) :
  get_route callsign = inr route ->
  dict_get "airport_codes" route = Some codes ->
  ne_str codes "unknown" = true ->
  dict_get "_airports" route = Some (VList airports) ->
  (2 <= List.length airports)%nat ->
  (forall i X Y, nth_error airports i = Some X ->
     nth_error airports (S i) = Some Y ->
     exists d, oracle_says plausible lat lng X Y false d) ->
  nth_error airports (List.length airports - 2) = Some A ->
  nth_error airports (List.length airports - 1) = Some B ->
  oracle_says plausible lat lng A B false d_last ->
  exists r w,
    result (resolve callsign lat lng) = Ret r
    /\ dict_get "plausible" r = Some (VBool false)
    /\ (forall k, k <> "plausible" -> dict_get k r = dict_get k route)
    /\ trace (resolve callsign lat lng)
       = (w ++ [EPrint (MsgImplausible lat lng d_last)])%list
    /\ List.length (oracle_calls (trace (resolve callsign lat lng)))
       = (List.length airports - 1)%nat.
Proof.
  intros Hs Hc Hk Ha Hlen Hall HA HB Hlast.
  destruct (@resolve_known_walked callsign lat lng route codes airports
              Hs Hc Hk Ha)
    as (rw & Hw & Hr & Ht).
  destruct (walked_all_implausible Hw Hlen Hall)
    as (A' & B' & d' & HA' & HB' & Hs' & -> & Hn).
  assert (A' = A) as -> by congruence.
  assert (B' = B) as -> by congruence.
  destruct (oracle_says_functional Hs' Hlast) as [_ ->].
  destruct (Ht false d_last eq_refl) as (w & Hw').
  exists (dict_set "plausible" (VBool false) route), w.
  repeat split; auto.
  - apply dict_get_set_same.
  - intros k Hne. now apply dict_get_set_other.
Qed.

(** *** The batch resolver *)

Local Abbreviation resolve_plane' := (resolve_plane get_route plausible).
Local Abbreviation resolved' := (resolved_records get_route plausible).

Lemma for_planes_prefix (pre rest : list Plane) :
  (forall q, In q pre -> exists r, result (resolve_plane' q) = Ret r) ->
  forall acc,
    for_planes get_route plausible (pre ++ rest) acc
    = (result (for_planes get_route plausible rest (acc ++ resolved' pre)),
       flat_map (fun q => trace (resolve_plane' q)) pre
         ++ trace (for_planes get_route plausible rest
                     (acc ++ resolved' pre)))%list.
Proof.
  induction pre as [|q pre IH]; intros Hok acc.
  - cbn. rewrite app_nil_r.
    now destruct (for_planes get_route plausible rest acc).
  - destruct (Hok q (or_introl eq_refl)) as [r Hr].
    change (for_planes get_route plausible ((q :: pre) ++ rest) acc)
      with (bind (resolve_plane' q)
              (fun route => for_planes get_route plausible (pre ++ rest)
                              (acc ++ [route])%list)).
    cbn [flat_map resolved_records]. fold (resolved' pre).
    rewrite Hr.
    destruct (resolve_plane' q) as [o w] eqn:E. cbn in Hr. subst o.
    cbn [bind trace snd].
    rewrite IH by (intros q' Hq'; apply Hok; now right).
    now rewrite <- !app_assoc.
Qed.

Lemma resolved_records_nth (ps : list Plane) :
  (forall q, In q ps -> exists r, result (resolve_plane' q) = Ret r) ->
  List.length (resolved' ps) = List.length ps
  /\ forall i q, nth_error ps i = Some q ->
       exists r, result (resolve_plane' q) = Ret r
                 /\ nth_error (resolved' ps) i = Some r.
Proof.
  induction ps as [|p ps IH]; intros Hok.
  - split; [reflexivity|]. now intros [|i].
  - destruct (Hok p (or_introl eq_refl)) as [r Hr].
    destruct IH as [Hlen Hnth]; [intros q Hq; apply Hok; now right|].
    cbn [resolved_records flat_map]. fold (resolved' ps). rewrite Hr.
    split; [cbn; now rewrite Hlen|].
    intros [|i] q Hq; cbn in Hq |- *.
    + injection Hq as <-. now exists r.
    + now apply Hnth.
Qed.

(** C5: when every item of a batch resolves without error, the response
    holds as many records as the batch has items, and the i-th record is
    the one the resolution of the i-th item returns. *)
Theorem batch_results_in_order (planeList : PlaneList) :
  (forall q, In q (planes planeList) ->
     exists r, result (resolve_plane' q) = Ret r) ->
  exists resp,
    result (api_routeset get_route plausible planeList) = Ret resp
    /\ List.length (content resp) = List.length (planes planeList)
    /\ forall i q, nth_error (planes planeList) i = Some q ->
         exists r, result (get_route_for_callsign_lat_lng get_route
                             plausible (callsign q) (lat q) (lng q))
                   = Ret r
                   /\ nth_error (content resp) i = Some r.
Proof.
  intros Hok.
  destruct (@resolved_records_nth (planes planeList) Hok) as [Hlen Hnth].
  exists (mkResponse (resolved' (planes planeList))
            [("Access-Control-Allow-Origin", "*")]).
  split; [|split; [exact Hlen | exact Hnth]].
  unfold api_routeset. rewrite result_bind. cbn [emit result fst].
  rewrite result_bind.
  rewrite <- (app_nil_r (planes planeList)) at 1.
  rewrite (@for_planes_prefix (planes planeList) [] Hok). reflexivity.
Qed.

(** C1, as the code has it: when the items before some item of a batch
    resolve and that item raises, the whole batch raises that exception
    and returns no response; the trace ends with the failing item, the
    items after it are not resolved. *)
Theorem batch_stops_at_first_failure
  (pre : list Plane) (p : Plane) (post : list Plane) (e : exn) :
  (forall q, In q pre -> exists r, result (resolve_plane' q) = Ret r) ->
  result (resolve_plane' p) = Raise e ->
  let batch := mkPlaneList (pre ++ p :: post) in
  let m := api_routeset get_route plausible batch in
  result m = Raise e
  /\ (forall resp, result m <> Ret resp)
  /\ trace m
     = (EPrint (MsgPlaneList batch)
          :: flat_map (fun q => trace (resolve_plane' q)) pre
          ++ trace (resolve_plane' p))%list.
Proof.
  intros Hok Hp batch m.
  assert (H : m = (Raise e,
                   EPrint (MsgPlaneList batch)
                     :: flat_map (fun q => trace (resolve_plane' q)) pre
                     ++ trace (resolve_plane' p))%list).
  { subst m. unfold api_routeset. cbn [planes batch emit bind].
    rewrite (@for_planes_prefix pre (p :: post) Hok). cbn [for_planes].
    fold (resolve_plane' p).
    destruct (resolve_plane' p) as [o w]. cbn in Hp. subst o.
    reflexivity. }
  rewrite H. cbn. repeat split. discriminate.
Qed.

End Properties.

(** ** The properties on the sample data *)

Lemma unknown_route_returned_unchanged_witness :
  result (get_route_for_callsign_lat_lng sample_store sample_oracle
            "CALLSIGN2" "1" "2") = Ret route2
  /\ oracle_calls (trace (get_route_for_callsign_lat_lng sample_store
                            sample_oracle "CALLSIGN2" "1" "2")) = []
  /\ trace (get_route_for_callsign_lat_lng sample_store sample_oracle
              "CALLSIGN2" "1" "2") = [EFetch "CALLSIGN2"].
Proof.
  apply (@unknown_route_returned_unchanged sample_store sample_oracle
           "CALLSIGN2" "1" "2" route2); reflexivity.
Defined.

Lemma short_chain_marked_implausible_witness :
  exists r,
    result (get_route_for_callsign_lat_lng sample_store sample_oracle
              "CALLSIGN4" "1" "2") = Ret r
    /\ r = dict_set "plausible" (VBool false) route4
    /\ dict_get "plausible" r = Some (VBool false)
    /\ oracle_calls (trace (get_route_for_callsign_lat_lng sample_store
                              sample_oracle "CALLSIGN4" "1" "2")) = [].
Proof.
  apply (@short_chain_marked_implausible sample_store sample_oracle
           "CALLSIGN4" "1" "2" route4 (VStr "AAAA") [airportA]);
    try reflexivity.
  simpl. lia.
Defined.

Lemma oracle_failure_propagates_witness :
  result (get_route_for_callsign_lat_lng sample_store sample_oracle
            "CALLSIGN1" "x" "2") = Raise ValueError
  /\ forall r, result (get_route_for_callsign_lat_lng sample_store
                         sample_oracle "CALLSIGN1" "x" "2") <> Ret r.
Proof.
  apply (@oracle_failure_propagates sample_store sample_oracle
           "CALLSIGN1" "x" "2" (call_AB "x" "2") ValueError).
  - vm_compute. left. reflexivity.
  - reflexivity.
Defined.

Lemma resolve_only_sets_plausible_witness :
  ((route1 ++ [("plausible", VBool true)])%list = route1
   \/ exists b, (route1 ++ [("plausible", VBool true)])%list
                = dict_set "plausible" (VBool b) route1)
  /\ (forall k, k <> "plausible" ->
        dict_get k (route1 ++ [("plausible", VBool true)])%list
        = dict_get k route1)
  /\ dict_get "_airports" (route1 ++ [("plausible", VBool true)])%list
     = dict_get "_airports" route1.
Proof.
  apply (@resolve_only_sets_plausible sample_store sample_oracle
           "CALLSIGN1" "1" "2" route1); vm_compute; reflexivity.
Defined.

Lemma last_distance_only_printed_witness :
  exists r w,
    result (get_route_for_callsign_lat_lng sample_store sample_oracle
              "CALLSIGN3" "1" "2") = Ret r
    /\ dict_get "plausible" r = Some (VBool false)
    /\ (forall k, k <> "plausible" -> dict_get k r = dict_get k route3)
    /\ trace (get_route_for_callsign_lat_lng sample_store sample_oracle
                "CALLSIGN3" "1" "2")
       = (w ++ [EPrint (MsgImplausible "1" "2" (VInt 150))])%list
    /\ List.length
         (oracle_calls (trace (get_route_for_callsign_lat_lng sample_store
                                 sample_oracle "CALLSIGN3" "1" "2")))
       = (List.length [airportA; airportB] - 1)%nat.
Proof.
  apply (@last_distance_only_printed sample_store sample_oracle
           "CALLSIGN3" "1" "2" route3 (VStr "AAAA-BBBB")
           [airportA; airportB] airportA airportB (VInt 150));
    try reflexivity.
  - intros [|[|i]] X Y HX HY; simpl in HX, HY; try discriminate.
    injection HX as <-. injection HY as <-.
    exists (VInt 150), (call_AB "1" "2"). split; reflexivity.
  - exists (call_AB "1" "2"). split; reflexivity.
Defined.

Lemma batch_results_in_order_witness :
  exists resp,
    result (api_routeset sample_store sample_oracle mixed_batch) = Ret resp
    /\ List.length (content resp) = List.length (planes mixed_batch)
    /\ forall i q, nth_error (planes mixed_batch) i = Some q ->
         exists r, result (get_route_for_callsign_lat_lng sample_store
                             sample_oracle (callsign q) (lat q) (lng q))
                   = Ret r
                   /\ nth_error (content resp) i = Some r.
Proof.
  apply (@batch_results_in_order sample_store sample_oracle mixed_batch).
  intros q [<-|[<-|[<-|[]]]]; eexists; vm_compute; reflexivity.
Defined.

Lemma batch_stops_at_first_failure_witness :
  let m := api_routeset sample_store sample_oracle failing_batch in
  result m = Raise ValueError
  /\ (forall resp, result m <> Ret resp)
  /\ trace m
     = (EPrint (MsgPlaneList failing_batch)
          :: flat_map (fun q => trace (resolve_plane sample_store
                                         sample_oracle q))
               [mkPlane "CALLSIGN2" "1" "2"]
          ++ trace (resolve_plane sample_store sample_oracle
                      (mkPlane "CALLSIGN1" "x" "2")))%list.
Proof.
  apply (@batch_stops_at_first_failure sample_store sample_oracle
           [mkPlane "CALLSIGN2" "1" "2"] (mkPlane "CALLSIGN1" "x" "2")
           [mkPlane "CALLSIGN3" "1" "2"] ValueError).
  - intros q [<-|[]]. eexists. vm_compute. reflexivity.
  - vm_compute. reflexivity.
Defined.

(** C1 as stated fails: in a batch of three whose second item meets an
    oracle error, the first and third items resolve on their own, yet the
    batch returns no sequence at all, and the third item is never
    fetched. *)
Lemma batch_aborts_on_failing_item :
  let m := api_routeset sample_store sample_oracle failing_batch in
  result (resolve_plane sample_store sample_oracle
            (mkPlane "CALLSIGN2" "1" "2")) = Ret route2
  /\ result (resolve_plane sample_store sample_oracle
               (mkPlane "CALLSIGN1" "x" "2")) = Raise ValueError
  /\ result (resolve_plane sample_store sample_oracle
               (mkPlane "CALLSIGN3" "1" "2"))
     = Ret (route3 ++ [("plausible", VBool false)])%list
  /\ ~ (exists resp, result m = Ret resp
                     /\ List.length (content resp) = 3%nat)
  /\ ~ In (EFetch "CALLSIGN3") (trace m).
Proof.
  repeat split; try (vm_compute; reflexivity).
  - intros (resp & H & _). vm_compute in H. discriminate.
  - vm_compute. intros H. repeat (destruct H as [H|H]; [discriminate|]).
    exact H.
Qed.

(** C4 as stated fails: on the two-airport route the oracle reports the
    only pair implausible at distance 150, and the record returned is the
    fetched one with [plausible] added; no key of it holds the distance. *)
Lemma returned_record_has_no_distance :
  let m := get_route_for_callsign_lat_lng sample_store sample_oracle
             "CALLSIGN3" "1" "2" in
  oracle_says sample_oracle "1" "2" airportA airportB false (VInt 150)
  /\ result m = Ret (route3 ++ [("plausible", VBool false)])%list
  /\ ~ (exists r k, result m = Ret r /\ dict_get k r = Some (VInt 150)).
Proof.
  split; [|split].
  - exists (call_AB "1" "2"). split; reflexivity.
  - vm_compute. reflexivity.
  - intros (r & k & Hr & Hk). vm_compute in Hr. injection Hr as <-.
    cbn [dict_get] in Hk.
    repeat match type of Hk with
           | (if ?b then _ else _) = _ => destruct b; [discriminate|]
           end.
    discriminate.
Qed.

(** ** Further properties of the resolver and of the endpoints *)

Lemma dict_keys_set (k : string) (v : pyval) (d : pydict) :
  dict_keys (dict_set k v d)
  = if has_key k d then dict_keys d else (dict_keys d ++ [k])%list.
Proof.
  unfold has_key, dict_keys.
  induction d as [|[k0 v0] d IH]; cbn; [reflexivity|].
  destruct (String.eqb k k0); cbn; [reflexivity|].
  rewrite IH. now destruct (existsb (String.eqb k) (map fst d)).
Qed.

Lemma oracle_calls_flat_map (A : Type) (f : A -> list event) (l : list A) :
  oracle_calls (flat_map f l)
  = flat_map (fun x => oracle_calls (f x)) l.
Proof.
  induction l as [|x l IH]; cbn; [reflexivity|].
  now rewrite oracle_calls_app, IH.
Qed.

Section MoreProperties.

Variable get_route : string -> exn + pydict.
Variable plausible : check_args -> exn + (bool * pyval).

Local Abbreviation resolve :=
  (get_route_for_callsign_lat_lng get_route plausible).

Lemma while_segments_not_list_ret (route : pydict) (lat lng : string)
  (fuel : nat) (a : Z) (p : bool) (d : pyval) :
  (forall l, getitem route "_airports" <> inr (VList l)) ->
  forall p' d',
    result (while_segments plausible (S fuel) route lat lng a p d)
    = Ret (p', d') ->
    p' = p /\ d' = d.
Proof.
  intros Hnl p' d'. cbn [while_segments].
  destruct (getitem route "_airports") as [e|v] eqn:E.
  - cbn. discriminate.
  - destruct v as [| | | |s|l|dd]; try (cbn; discriminate).
    + cbn [lift]. rewrite bind_ret. cbn [lift py_len]. rewrite bind_ret.
      match goal with |- context [a <? ?n] => destruct (a <? n) end;
        [|cbn; now intros [= <- <-]].
      rewrite bind_ret. cbn [subscript_int].
      destruct (nth_error (characters s) (Z.to_nat a));
        [|cbn; discriminate].
      cbn [lift]. rewrite !bind_ret. cbn [subscript_int].
      destruct (nth_error (characters s) (Z.to_nat (a + 1)));
        cbn; discriminate.
    + now destruct (Hnl l).
    + cbn [lift]. rewrite bind_ret. cbn [lift py_len]. rewrite bind_ret.
      match goal with |- context [a <? ?n] => destruct (a <? n) end;
        cbn; [discriminate | now intros [= <- <-]].
Qed.

(** Every resolution that returns a record is of one of three kinds: the
    fetched record untouched and no call; the verdict [False] after calls
    that all answered implausible; the verdict [True] on the answer of the
    last call. *)
Lemma resolve_verdict_cases (callsign lat lng : string) (route r : pydict) :
  get_route callsign = inr route ->
  result (resolve callsign lat lng) = Ret r ->
  let calls := oracle_calls (trace (resolve callsign lat lng)) in
  (r = route /\ calls = []
   /\ exists codes, dict_get "airport_codes" route = Some codes
                    /\ ne_str codes "unknown" = false)
  \/ (r = dict_set "plausible" (VBool false) route
      /\ forall c, In c calls -> exists d, plausible c = inr (false, d))
  \/ (r = dict_set "plausible" (VBool true) route
      /\ exists c d, nth_error calls (List.length calls - 1) = Some c
                     /\ plausible c = inr (true, d)).
Proof.
  intros Hs Hr calls. subst calls.
  destruct (getitem route "airport_codes") as [e|codes] eqn:Hc.
  { rewrite resolve_shape, Hs, Hc in Hr. discriminate. }
  destruct (ne_str codes "unknown") eqn:Hk.
  2:{ rewrite resolve_shape, Hs, Hc, Hk in Hr |- *. injection Hr as <-.
      left. repeat split. exists codes. split; [|exact Hk].
      now apply getitem_inr. }
  right.
  destruct (getitem route "_airports") as [e|v] eqn:Ha.
  2: destruct v as [| | | | |airports|].
  7:{ apply getitem_inr in Hc, Ha.
      destruct (@resolve_known_walked get_route plausible callsign lat lng
                  route codes airports Hs Hc Hk Ha) as (rw & Hw & Hres & _).
      rewrite Hres in Hr. destruct rw as [[p d]|e|]; try discriminate.
      injection Hr as <-.
      destruct (walked_returned get_route Hw eq_refl)
        as [(-> & c & Hn & Hc0)|(_ & He & Hne & Hall)].
      - right. split; [reflexivity|]. now exists c, d.
      - left. split; [|exact Hall].
        destruct (oracle_calls (trace (resolve callsign lat lng))).
        + now destruct (He eq_refl) as [-> _].
        + now rewrite Hne. }
  all: left.
  all: assert (Hnl : forall l, getitem route "_airports" <> inr (VList l))
      by (intros l; rewrite Ha; discriminate).
  all: assert (Hf : exists f, loop_fuel route = S f)
      by (unfold loop_fuel; rewrite Ha; cbn; eauto).
  all: destruct Hf as [fl Hfl].
  all: rewrite resolve_shape, Hs, Hc, Hk, Hfl in Hr |- *.
  all: destruct (@while_segments_not_list plausible route lat lng fl 0 false
                   (VInt 0) Hnl) as [Hc0 _].
  all: pose proof (@while_segments_not_list_ret route lat lng fl 0 false
                     (VInt 0) Hnl) as Hret.
  all: destruct (while_segments plausible (S fl) route lat lng 0 false
                   (VInt 0)) as [[[p0 d0]|e'|] w0]; try discriminate.
  all: destruct (Hret p0 d0 eq_refl) as [-> ->].
  all: injection Hr as <-.
  all: split; [reflexivity|].
  all: cbn in Hc0 |- *; rewrite oracle_calls_app, Hc0; cbn.
  all: intros c [].
Qed.

(** X1: when the store raises for a callsign, the resolution raises the
    same exception straight after the fetch: nothing is printed and the
    oracle is not called. *)
Theorem store_failure_propagates (callsign lat lng : string) (e : exn) :
  get_route callsign = inl e ->
  resolve callsign lat lng = (Raise e, [EFetch callsign]).
Proof.
  intros Hs. now rewrite resolve_shape, Hs.
Qed.

(** X2: a fetched record without the key [airport_codes] makes the
    resolution raise [KeyError('airport_codes')] before anything is
    printed or checked. *)
Theorem missing_airport_codes_raises
  (callsign lat lng : string) (route : pydict) :
  get_route callsign = inr route ->
  dict_get "airport_codes" route = None ->
  resolve callsign lat lng
  = (Raise (KeyError (VStr "airport_codes")), [EFetch callsign]).
Proof.
  intros Hs Hc. rewrite resolve_shape, Hs. unfold getitem. now rewrite Hc.
Qed.

(** X3: a known route whose record lacks the key [_airports] makes the
    resolution raise [KeyError('_airports')] when the loop condition is
    first evaluated: the callsign line is printed, the oracle is not
    called and no verdict is produced. *)
Theorem missing_airports_raises
  (callsign lat lng : string) (route : pydict) (codes : pyval) :
  get_route callsign = inr route ->
  dict_get "airport_codes" route = Some codes ->
  ne_str codes "unknown" = true ->
  dict_get "_airports" route = None ->
  resolve callsign lat lng
  = (Raise (KeyError (VStr "_airports")),
     [EFetch callsign; EPrint (MsgCallsign callsign)]).
Proof.
  intros Hs Hc Hk Ha. apply getitem_inr in Hc.
  rewrite resolve_shape, Hs, Hc, Hk.
  unfold loop_fuel, getitem. rewrite Ha. cbn [while_segments].
  unfold getitem. rewrite Ha. reflexivity.
Qed.

(** X4: when [_airports] of a known route is a JSON value other than a
    list ([None], a boolean, a number, text, or a dict, whose keys are
    text), the oracle is never called, and a resolution that returns can
    only return the verdict [False]. *)
Theorem non_list_airports_never_checked
  (callsign lat lng : string) (route : pydict) (codes v : pyval) :
  get_route callsign = inr route ->
  dict_get "airport_codes" route = Some codes ->
  ne_str codes "unknown" = true ->
  dict_get "_airports" route = Some v ->
  (forall l, v <> VList l) ->
  oracle_calls (trace (resolve callsign lat lng)) = []
  /\ forall r, result (resolve callsign lat lng) = Ret r ->
       r = dict_set "plausible" (VBool false) route.
Proof.
  intros Hs Hc Hk Ha Hv.
  assert (Hcalls : oracle_calls (trace (resolve callsign lat lng)) = []).
  { destruct (@resolve_cases get_route plausible callsign lat lng)
      as [[H _]|(route' & codes' & airports & Hs' & _ & _ & Ha' & _)];
      [exact H|].
    assert (route' = route) as -> by congruence.
    apply getitem_inr in Ha'. rewrite Ha in Ha'. injection Ha' as ->.
    now destruct (Hv airports). }
  split; [exact Hcalls|].
  intros r Hr.
  destruct (@resolve_verdict_cases callsign lat lng route r Hs Hr)
    as [(_ & _ & codes' & Hc' & Hk')|[[-> _]|(_ & c & d & Hn & _)]].
  - congruence.
  - reflexivity.
  - rewrite Hcalls in Hn. discriminate.
Qed.

(** X5: when the store's record carries no verdict, a returned record
    with [plausible] equal to [True] is always backed by the oracle: the
    last call made answered plausible. *)
Theorem true_verdict_backed_by_oracle
  (callsign lat lng : string) (route r : pydict) :
  get_route callsign = inr route ->
  dict_get "plausible" route = None ->
  result (resolve callsign lat lng) = Ret r ->
  dict_get "plausible" r = Some (VBool true) ->
  exists c d,
    nth_error (oracle_calls (trace (resolve callsign lat lng)))
      (List.length (oracle_calls (trace (resolve callsign lat lng))) - 1)
    = Some c
    /\ plausible c = inr (true, d).
Proof.
  intros Hs Hn Hr Hp.
  destruct (@resolve_verdict_cases callsign lat lng route r Hs Hr)
    as [(-> & _)|[[-> _]|(_ & H)]].
  - congruence.
  - rewrite dict_get_set_same in Hp. discriminate.
  - exact H.
Qed.

(** X6: when the store's record carries no verdict, a returned record
    with [plausible] equal to [False] means that every call of the oracle
    made for it answered implausible: no plausible answer is ever
    discarded. *)
Theorem false_verdict_means_no_plausible_answer
  (callsign lat lng : string) (route r : pydict) (c : check_args) :
  get_route callsign = inr route ->
  dict_get "plausible" route = None ->
  result (resolve callsign lat lng) = Ret r ->
  dict_get "plausible" r = Some (VBool false) ->
  In c (oracle_calls (trace (resolve callsign lat lng))) ->
  exists d, plausible c = inr (false, d).
Proof.
  intros Hs Hn Hr Hp Hin.
  destruct (@resolve_verdict_cases callsign lat lng route r Hs Hr)
    as [(-> & _)|[[_ H]|(-> & _)]].
  - congruence.
  - now apply H.
  - rewrite dict_get_set_same in Hp. discriminate.
Qed.

Section MoreWalked.

Variables lat lng : string.

Local Abbreviation walked' := (walked plausible lat lng).
Local Abbreviation says := (oracle_says plausible lat lng).

Lemma walked_answered l p d r cs :
  walked' l p d r cs ->
  (forall i A B, nth_error l i = Some A -> nth_error l (S i) = Some B ->
     exists p' d', says A B p' d') ->
  exists p' d', r = Ret (p', d').
Proof.
  induction 1 as [l p d Hl|A B l p d e Hp|A B l p d c e Hp Ho
                 |A B l p d c d0 Hp Ho|A B l p d c d0 r cs Hp Ho Hw IH];
    intros Hall.
  - now exists p, d.
  - destruct (Hall 0%nat A B eq_refl eq_refl) as (p' & d' & c' & Hc' & _).
    congruence.
  - destruct (Hall 0%nat A B eq_refl eq_refl) as (p' & d' & c' & Hc' & Ho').
    congruence.
  - now exists true, d0.
  - apply IH. intros i X Y HX HY. exact (Hall (S i) X Y HX HY).
Qed.

Lemma walked_first_plausible l p d r cs :
  walked' l p d r cs ->
  forall k X Y dk,
    (forall i A B, (i < k)%nat ->
       nth_error l i = Some A -> nth_error l (S i) = Some B ->
       exists d', says A B false d') ->
    nth_error l k = Some X -> nth_error l (S k) = Some Y ->
    says X Y true dk ->
    r = Ret (true, dk) /\ List.length cs = S k.
Proof.
  induction 1 as [l p d Hl|A B l p d e Hp|A B l p d c e Hp Ho
                 |A B l p d c d0 Hp Ho|A B l p d c d0 r cs Hp Ho Hw IH];
    intros k X Y dk Hbefore HX HY Hk.
  - assert (nth_error l (S k) <> None) as HS by congruence.
    apply nth_error_Some in HS. lia.
  - destruct k as [|k].
    + cbn in HX, HY. injection HX as <-. injection HY as <-.
      destruct Hk as (c' & Hc' & _). congruence.
    + destruct (Hbefore 0%nat A B (Nat.lt_0_succ k) eq_refl eq_refl)
        as (d' & c' & Hc' & _). congruence.
  - destruct k as [|k].
    + cbn in HX, HY. injection HX as <-. injection HY as <-.
      destruct Hk as (c' & Hc' & Ho'). congruence.
    + destruct (Hbefore 0%nat A B (Nat.lt_0_succ k) eq_refl eq_refl)
        as (d' & c' & Hc' & Ho'). congruence.
  - destruct k as [|k].
    + cbn in HX, HY. injection HX as <-. injection HY as <-.
      destruct Hk as (c' & Hc' & Ho').
      assert (c' = c) as -> by congruence.
      split; [|reflexivity]. congruence.
    + destruct (Hbefore 0%nat A B (Nat.lt_0_succ k) eq_refl eq_refl)
        as (d' & c' & Hc' & Ho'). congruence.
  - destruct k as [|k].
    + cbn in HX, HY. injection HX as <-. injection HY as <-.
      destruct Hk as (c' & Hc' & Ho'). congruence.
    + destruct (IH k X Y dk) as [Hr Hlen]; auto.
      * intros i A' B' Hi HA HB.
        apply (Hbefore (S i) A' B'); auto. lia.
      * split; [exact Hr | cbn; now rewrite Hlen].
Qed.

Lemma walked_unprepared_at l p d r cs :
  walked' l p d r cs ->
  forall k X Y e,
    (forall i A B, (i < k)%nat ->
       nth_error l i = Some A -> nth_error l (S i) = Some B ->
       exists d', says A B false d') ->
    nth_error l k = Some X -> nth_error l (S k) = Some Y ->
    prepared lat lng X Y = inl e ->
    r = Raise e /\ List.length cs = k.
Proof.
  induction 1 as [l p d Hl|A B l p d e0 Hp|A B l p d c e0 Hp Ho
                 |A B l p d c d0 Hp Ho|A B l p d c d0 r cs Hp Ho Hw IH];
    intros k X Y e Hbefore HX HY Hk.
  - assert (nth_error l (S k) <> None) as HS by congruence.
    apply nth_error_Some in HS. lia.
  - destruct k as [|k].
    + cbn in HX, HY. injection HX as <-. injection HY as <-.
      split; [congruence | reflexivity].
    + destruct (Hbefore 0%nat A B (Nat.lt_0_succ k) eq_refl eq_refl)
        as (d' & c' & Hc' & _). congruence.
  - destruct k as [|k].
    + cbn in HX, HY. injection HX as <-. injection HY as <-. congruence.
    + destruct (Hbefore 0%nat A B (Nat.lt_0_succ k) eq_refl eq_refl)
        as (d' & c' & Hc' & Ho'). congruence.
  - destruct k as [|k].
    + cbn in HX, HY. injection HX as <-. injection HY as <-. congruence.
    + destruct (Hbefore 0%nat A B (Nat.lt_0_succ k) eq_refl eq_refl)
        as (d' & c' & Hc' & Ho'). congruence.
  - destruct k as [|k].
    + cbn in HX, HY. injection HX as <-. injection HY as <-. congruence.
    + destruct (IH k X Y e) as [Hr Hlen]; auto.
      * intros i A' B' Hi HA HB.
        apply (Hbefore (S i) A' B'); auto. lia.
      * split; [exact Hr | cbn; now rewrite Hlen].
Qed.


End MoreWalked.

(** X7: on a known route, when the oracle answers implausible on the
    pairs before pair k and plausible on pair k, the verdict is [True],
    exactly k+1 calls are made and the trace closes with the "ok" line:
    whatever follows airport k+1 in the chain is never looked at. *)
Theorem first_plausible_pair_decides
  (callsign lat lng : string) (route : pydict) (codes : pyval)
  (airports : list pyval) (k : nat) (X Y d : pyval) :
  get_route callsign = inr route ->
  dict_get "airport_codes" route = Some codes ->
  ne_str codes "unknown" = true ->
  dict_get "_airports" route = Some (VList airports) ->
  (forall i A B, (i < k)%nat ->
     nth_error airports i = Some A -> nth_error airports (S i) = Some B ->
     exists d', oracle_says plausible lat lng A B false d') ->
  nth_error airports k = Some X ->
  nth_error airports (S k) = Some Y ->
  oracle_says plausible lat lng X Y true d ->
  result (resolve callsign lat lng)
  = Ret (dict_set "plausible" (VBool true) route)
  /\ List.length (oracle_calls (trace (resolve callsign lat lng))) = S k
  /\ exists w, trace (resolve callsign lat lng)
               = (w ++ [EPrint MsgOk])%list.
Proof.
  intros Hs Hc Hk Ha Hbefore HX HY Hsay.
  destruct (@resolve_known_walked get_route plausible callsign lat lng
              route codes airports Hs Hc Hk Ha) as (rw & Hw & Hres & Ht).
  destruct (walked_first_plausible Hw Hbefore HX HY Hsay) as [-> Hlen].
  split; [exact Hres|]. split; [exact Hlen|].
  exact (Ht true d eq_refl).
Qed.

(** X8: on a known route, when the oracle answers implausible on the
    pairs before pair k and pair k cannot be prepared (an airport without
    [iata], [lat] or [lon], or with a coordinate that [.5f] rejects), the
    resolution raises that exception after exactly k calls: the oracle is
    not called on the malformed pair and no verdict is returned. *)
Theorem malformed_pair_raises
  (callsign lat lng : string) (route : pydict) (codes : pyval)
  (airports : list pyval) (k : nat) (X Y : pyval) (e : exn) :
  get_route callsign = inr route ->
  dict_get "airport_codes" route = Some codes ->
  ne_str codes "unknown" = true ->
  dict_get "_airports" route = Some (VList airports) ->
  (forall i A B, (i < k)%nat ->
     nth_error airports i = Some A -> nth_error airports (S i) = Some B ->
     exists d', oracle_says plausible lat lng A B false d') ->
  nth_error airports k = Some X ->
  nth_error airports (S k) = Some Y ->
  prepared lat lng X Y = inl e ->
  result (resolve callsign lat lng) = Raise e
  /\ List.length (oracle_calls (trace (resolve callsign lat lng))) = k.
Proof.
  intros Hs Hc Hk Ha Hbefore HX HY Hprep.
  destruct (@resolve_known_walked get_route plausible callsign lat lng
              route codes airports Hs Hc Hk Ha) as (rw & Hw & Hres & _).
  destruct (walked_unprepared_at Hw Hbefore HX HY Hprep) as [-> Hlen].
  now split.
Qed.

(** X9: on a known route all of whose pairs the oracle answers, the
    resolution returns, and the verdict is [True] exactly when the oracle
    finds some pair of the chain plausible. *)
Theorem verdict_iff_some_pair_plausible
  (callsign lat lng : string) (route : pydict) (codes : pyval)
  (airports : list pyval) :
  get_route callsign = inr route ->
  dict_get "airport_codes" route = Some codes ->
  ne_str codes "unknown" = true ->
  dict_get "_airports" route = Some (VList airports) ->
  (forall i A B,
     nth_error airports i = Some A -> nth_error airports (S i) = Some B ->
     exists p d, oracle_says plausible lat lng A B p d) ->
  exists b,
    result (resolve callsign lat lng)
    = Ret (dict_set "plausible" (VBool b) route)
    /\ (b = true
        <-> exists i A B d,
              nth_error airports i = Some A
              /\ nth_error airports (S i) = Some B
              /\ oracle_says plausible lat lng A B true d).
Proof.
  intros Hs Hc Hk Ha Hall.
  destruct (@resolve_known_walked get_route plausible callsign lat lng
              route codes airports Hs Hc Hk Ha) as (rw & Hw & Hres & _).
  destruct (walked_answered Hw Hall) as (p & d & ->).
  exists p. split; [exact Hres|].
  set (cs := oracle_calls (trace (resolve callsign lat lng))) in *.
  destruct (walked_returned get_route Hw eq_refl)
    as [(-> & c & Hn & Hc0)|(Hlen & He & Hne & Himp)].
  - split; [intros _|reflexivity].
    destruct (walked_segments Hw _ Hn) as (A & B & HA & HB & Hp).
    exists (List.length cs - 1)%nat, A, B, d.
    repeat split; auto. now exists c.
  - assert (Hpf : p = false).
    { destruct cs as [|c0 cs'].
      - now destruct (He eq_refl).
      - apply Hne. discriminate. }
    subst p. split; [discriminate|].
    intros (i & A & B & d' & HA & HB & c & Hp & Ho).
    assert (Hi : (i < List.length cs)%nat).
    { assert (nth_error airports (S i) <> None) as HS by congruence.
      apply nth_error_Some in HS. lia. }
    destruct (nth_error cs i) as [c'|] eqn:Hci.
    2:{ apply nth_error_None in Hci. lia. }
    destruct (walked_segments Hw _ Hci) as (A' & B' & HA' & HB' & Hp').
    assert (c' = c) as -> by congruence.
    destruct (Himp c (nth_error_In _ _ Hci)) as [d'' Hd''].
    congruence.
Qed.

Lemma while_segments_ext (route route' : pydict) (lat lng : string) :
  getitem route' "_airports" = getitem route "_airports" ->
  forall fuel a p d,
    while_segments plausible fuel route' lat lng a p d
    = while_segments plausible fuel route lat lng a p d.
Proof.
  intros H. induction fuel as [|fuel IH]; intros a p d; [reflexivity|].
  cbn [while_segments]. rewrite H.
  destruct (getitem route "_airports") as [e|v]; [reflexivity|].
  cbn [lift]. rewrite ?bind_ret.
  destruct (py_len v) as [e|n]; [reflexivity|].
  cbn [lift]. rewrite ?bind_ret.
  destruct (a <? n - 1); [|reflexivity].
  cbn [lift].
  rewrite ?bind_ret.
  destruct (subscript_int v a) as [e|x]; [reflexivity|].
  cbn [lift]. rewrite ?bind_ret.
  destruct (subscript_int v (a + 1)) as [e|y]; [reflexivity|].
  cbn [lift]. rewrite ?bind_ret.
  destruct (check_segment plausible lat lng x y) as [[[p' d']|e|] w];
    cbn; auto.
  destruct p'; [reflexivity|]. now rewrite IH.
Qed.

(** X10: two fetched records of a known route that agree on every key
    but [plausible] (which either may carry, anywhere among its keys, with
    any value) are resolved alike: the same trace, so the same calls and
    printed lines, the same exception if one is raised, and returned
    records that hold the same verdict and agree on every key.  A stale
    [plausible] has no influence and is overwritten. *)
Theorem stale_verdict_is_overwritten
  (get_route' : string -> exn + pydict)
  (callsign lat lng : string) (route route' : pydict) (codes : pyval) :
  get_route callsign = inr route ->
  get_route' callsign = inr route' ->
  (forall k, k <> "plausible" -> dict_get k route' = dict_get k route) ->
  dict_get "airport_codes" route = Some codes ->
  ne_str codes "unknown" = true ->
  let m := resolve callsign lat lng in
  let m' := get_route_for_callsign_lat_lng get_route' plausible
              callsign lat lng in
  trace m' = trace m
  /\ match result m, result m' with
     | Ret r, Ret r' =>
         (forall k, dict_get k r' = dict_get k r)
         /\ exists b, r = dict_set "plausible" (VBool b) route
                      /\ r' = dict_set "plausible" (VBool b) route'
     | Raise e, Raise e' => e = e'
     | _, _ => False
     end.
Proof.
  intros Hs Hs' Hagree Hc Hk m m'. subst m m'.
  assert (Hget : forall k, k <> "plausible" ->
            getitem route' k = getitem route k).
  { intros k Hne. unfold getitem. now rewrite Hagree. }
  pose proof (@resolve_returns get_route plausible callsign lat lng) as Hf.
  rewrite !resolve_shape, Hs, Hs' in *.
  rewrite (Hget "airport_codes") by discriminate.
  apply getitem_inr in Hc. rewrite Hc, Hk in *.
  assert (Hfuel : loop_fuel route' = loop_fuel route).
  { unfold loop_fuel. now rewrite (Hget "_airports") by discriminate. }
  rewrite Hfuel.
  rewrite (@while_segments_ext route route' lat lng)
    by (apply Hget; discriminate).
  destruct (while_segments plausible (loop_fuel route) route lat lng 0
              false (VInt 0)) as [[[p d]|e|] w]; cbn in Hf |- *.
  - split; [reflexivity|]. split; [|now exists p].
    intros k. destruct (String.eqb_spec k "plausible") as [->|Hne].
    + now rewrite !dict_get_set_same.
    + rewrite !dict_get_set_other by exact Hne. now apply Hagree.
  - now split.
  - congruence.
Qed.

(** X11: the record returned for a known route lists the keys of the
    fetched record in their order; [plausible] keeps its place when the
    fetched record had it and comes last when it had not. *)
Theorem plausible_key_position
  (callsign lat lng : string) (route r : pydict) (codes : pyval) :
  get_route callsign = inr route ->
  dict_get "airport_codes" route = Some codes ->
  ne_str codes "unknown" = true ->
  result (resolve callsign lat lng) = Ret r ->
  dict_keys r
  = if has_key "plausible" route then dict_keys route
    else (dict_keys route ++ ["plausible"])%list.
Proof.
  intros Hs Hc Hk Hr.
  destruct (@resolve_verdict_cases callsign lat lng route r Hs Hr)
    as [(_ & _ & codes' & Hc' & Hk')|[[-> _]|[-> _]]].
  - congruence.
  - apply dict_keys_set.
  - apply dict_keys_set.
Qed.

(** X12: whatever the store returns, every call of the oracle made by a
    resolution carries the position exactly as the caller gave it: the
    text of [lat] and [lng] is neither parsed nor reformatted. *)
Theorem position_passed_verbatim
  (callsign lat lng : string) (c : check_args) :
  In c (oracle_calls (trace (resolve callsign lat lng))) ->
  pos_lat c = lat /\ pos_lng c = lng.
Proof.
  intros Hin.
  destruct (@resolve_cases get_route plausible callsign lat lng)
    as [[H0 _]|(route & codes & airports & Hs & Hc & Hk & Ha & _)].
  { rewrite H0 in Hin. contradiction. }
  apply getitem_inr in Hc, Ha.
  destruct (@resolve_known_walked get_route plausible callsign lat lng
              route codes airports Hs Hc Hk Ha) as (rw & Hw & _ & _).
  destruct (In_nth_error _ _ Hin) as [i Hi].
  destruct (walked_segments Hw _ Hi) as (A & B & _ & _ & Hp).
  apply prepared_segment_args in Hp.
  destruct (segment_args_inv _ _ _ _ Hp) as (H1 & H2 & _).
  now split.
Qed.


(** *** The endpoints *)

Lemma api_route3_shape (callsign lat lng : string) :
  result (api_route3 get_route plausible callsign lat lng)
  = match result (resolve callsign lat lng) with
    | Ret r => Ret (mkResponse r [("Access-Control-Allow-Origin", "*")])
    | Raise e => Raise e
    | OutOfFuel => OutOfFuel
    end
  /\ trace (api_route3 get_route plausible callsign lat lng)
     = trace (resolve callsign lat lng).
Proof.
  unfold api_route3.
  destruct (resolve callsign lat lng) as [[r|e|] w]; cbn; auto.
  now rewrite app_nil_r.
Qed.

(** X13: whenever the endpoint with a position returns a response for a
    callsign, the endpoint without a position returns one too, after the
    fetch alone (no oracle call, nothing printed), with the same headers
    and a record that agrees with the first on every key but
    [plausible]. *)
Theorem route3_extends_route
  (callsign lat lng : string) (resp3 : Response pydict) :
  result (api_route3 get_route plausible callsign lat lng) = Ret resp3 ->
  exists resp,
    api_route get_route callsign = (Ret resp, [EFetch callsign])
    /\ headers resp3 = headers resp
    /\ forall k, k <> "plausible" ->
         dict_get k (content resp3) = dict_get k (content resp).
Proof.
  intros H3.
  destruct (api_route3_shape callsign lat lng) as [Hres _].
  rewrite Hres in H3.
  destruct (result (resolve callsign lat lng)) as [r|e|] eqn:Hr;
    try discriminate.
  injection H3 as <-.
  destruct (get_route callsign) as [e|route] eqn:Hs.
  { rewrite resolve_shape, Hs in Hr. discriminate. }
  exists (mkResponse route [("Access-Control-Allow-Origin", "*")]).
  split; [|split; [reflexivity|]].
  - unfold api_route, fetch. now rewrite Hs.
  - intros k Hne. cbn [content].
    destruct (@resolve_verdict_cases callsign lat lng route r Hs Hr)
      as [(-> & _)|[[-> _]|[-> _]]]; auto using dict_get_set_other.
Qed.

(** X14: when the single-item endpoint returns for every item of a
    batch, the batch endpoint returns the records of those responses in
    input order, and it does to the outside exactly what the single-item
    calls do one after the other, after printing the batch: its trace is
    theirs concatenated, and so are its oracle calls. *)
Theorem batch_is_sequence_of_single_resolutions (planeList : PlaneList) :
  (forall q, In q (planes planeList) ->
     exists resp,
       result (api_route3 get_route plausible (callsign q) (lat q) (lng q))
       = Ret resp) ->
  exists resp,
    result (api_routeset get_route plausible planeList) = Ret resp
    /\ (forall i q, nth_error (planes planeList) i = Some q ->
          exists r,
            nth_error (content resp) i = Some r
            /\ result (api_route3 get_route plausible
                         (callsign q) (lat q) (lng q))
               = Ret (mkResponse r (headers resp)))
    /\ trace (api_routeset get_route plausible planeList)
       = EPrint (MsgPlaneList planeList)
           :: flat_map (fun q => trace (api_route3 get_route plausible
                                          (callsign q) (lat q) (lng q)))
                (planes planeList)
    /\ oracle_calls (trace (api_routeset get_route plausible planeList))
       = flat_map (fun q => oracle_calls
                              (trace (api_route3 get_route plausible
                                        (callsign q) (lat q) (lng q))))
           (planes planeList).
Proof.
  intros Hok.
  assert (Hok' : forall q, In q (planes planeList) ->
            exists r, result (resolve_plane get_route plausible q) = Ret r).
  { intros q Hq. destruct (Hok q Hq) as [resp Hresp].
    destruct (api_route3_shape (callsign q) (lat q) (lng q)) as [Hres _].
    rewrite Hres in Hresp. unfold resolve_plane.
    destruct (result (resolve (callsign q) (lat q) (lng q))) as [r|e|];
      try discriminate.
    now exists r. }
  destruct (@resolved_records_nth get_route plausible (planes planeList)
              Hok') as [_ Hnth].
  assert (Hm : api_routeset get_route plausible planeList
               = (Ret (mkResponse
                         (resolved_records get_route plausible
                            (planes planeList))
                         [("Access-Control-Allow-Origin", "*")]),
                  EPrint (MsgPlaneList planeList)
                    :: flat_map
                         (fun q => trace (resolve_plane get_route
                                            plausible q))
                         (planes planeList))).
  { unfold api_routeset. cbn [emit bind].
    rewrite <- (app_nil_r (planes planeList)) at 1.
    rewrite (@for_planes_prefix get_route plausible (planes planeList) []
               Hok').
    cbn. now rewrite !app_nil_r. }
  assert (Htr : forall q,
            trace (api_route3 get_route plausible
                     (callsign q) (lat q) (lng q))
            = trace (resolve_plane get_route plausible q)).
  { intros q. apply api_route3_shape. }
  exists (mkResponse
            (resolved_records get_route plausible (planes planeList))
            [("Access-Control-Allow-Origin", "*")]).
  rewrite Hm. cbn [result trace fst snd content headers].
  split; [reflexivity|]. split; [|split].
  - intros i q Hq. destruct (Hnth i q Hq) as (r & Hr & Hn).
    exists r. split; [exact Hn|].
    destruct (api_route3_shape (callsign q) (lat q) (lng q)) as [Hres _].
    rewrite Hres. unfold resolve_plane in Hr. now rewrite Hr.
  - f_equal. apply flat_map_ext. intros q. now rewrite Htr.
  - cbn [oracle_calls]. rewrite oracle_calls_flat_map.
    apply flat_map_ext. intros q. now rewrite Htr.
Qed.

End MoreProperties.

(** *** Rounding *)

Lemma round_half_even_nearest (num den : N) :
  den <> 0%N ->
  (2 * (round_half_even num den * den) <= 2 * num + den
   /\ 2 * num <= 2 * (round_half_even num den * den) + den)%N.
Proof.
  intros Hden. unfold round_half_even.
  pose proof (N.div_mod num den Hden) as Hdm.
  pose proof (N.mod_lt num den Hden) as Hlt.
  set (q := (num / den)%N) in *. set (r := (num mod den)%N) in *.
  clearbody q r.
  destruct (N.compare_spec (2 * r) den) as [He|Hl|Hg].
  - destruct (N.even q); nia.
  - nia.
  - nia.
Qed.

(** X15: the text [.5f] produces for a finite float [m * 2^e] is the
    sign, the integer part and the five digits of an integer [q] that is
    nearest to [|x| * 10^5]: [q] is off the exact product by at most one
    half, so a coordinate reaches the oracle rounded, never truncated. *)
Theorem format_5f_rounds_to_nearest (neg : bool) (m : N) (e : Z) :
  exists q : N,
    format_5f (FFinite neg m e)
    = (if neg then "-" else "")
        ++ decimal_of_N (q / 100000) ++ "." ++ frac5 (q mod 100000)
    /\ (2 * (q * dyadic_den e)
        <= 2 * (dyadic_num m e * 100000) + dyadic_den e)%N
    /\ (2 * (dyadic_num m e * 100000)
        <= 2 * (q * dyadic_den e) + dyadic_den e)%N.
Proof.
  exists (scaled5 m e). split; [reflexivity|].
  destruct e as [|p|p]; cbn [scaled5 dyadic_num dyadic_den].
  - set (x := (2 ^ Z.to_N 0)%N). clearbody x. nia.
  - set (x := (2 ^ Z.to_N (Z.pos p))%N). clearbody x. nia.
  - apply round_half_even_nearest. apply N.pow_nonzero. discriminate.
Qed.

(** *** Fetches *)

Lemma fetches_app (w1 w2 : list event) :
  fetches (w1 ++ w2) = (fetches w1 ++ fetches w2)%list.
Proof.
  induction w1 as [|[c|c|m] w1 IH]; cbn; auto. now rewrite IH.
Qed.

Lemma fetches_flat_map (A : Type) (f : A -> list event) (l : list A) :
  fetches (flat_map f l) = flat_map (fun x => fetches (f x)) l.
Proof.
  induction l as [|x l IH]; cbn; [reflexivity|].
  now rewrite fetches_app, IH.
Qed.

Section Fetches.

Variable get_route : string -> exn + pydict.
Variable plausible : check_args -> exn + (bool * pyval).

Lemma check_segment_no_fetch (lat lng : string) (A B : pyval) :
  fetches (trace (check_segment plausible lat lng A B)) = [].
Proof.
  unfold check_segment.
  destruct (subscript_str A "iata") as [e|ia]; [reflexivity|].
  destruct (subscript_str B "iata") as [e|ib]; [reflexivity|].
  cbn [lift]. rewrite !bind_ret.
  destruct (segment_args lat lng A B) as [e|c]; [reflexivity|].
  cbn. unfold call_plausible. now destruct (plausible c).
Qed.

Lemma while_segments_no_fetch (route : pydict) (lat lng : string) :
  forall fuel a p d,
    fetches (trace (while_segments plausible fuel route lat lng a p d)) = [].
Proof.
  induction fuel as [|fuel IH]; intros a p d; [reflexivity|].
  cbn [while_segments].
  destruct (getitem route "_airports") as [e|v]; [reflexivity|].
  cbn [lift]. rewrite ?bind_ret.
  destruct (py_len v) as [e|n]; [reflexivity|].
  cbn [lift]. rewrite ?bind_ret.
  destruct (a <? n - 1); [|reflexivity].
  cbn [lift]. rewrite ?bind_ret.
  destruct (subscript_int v a) as [e|x]; [reflexivity|].
  cbn [lift]. rewrite ?bind_ret.
  destruct (subscript_int v (a + 1)) as [e|y]; [reflexivity|].
  cbn [lift]. rewrite ?bind_ret.
  pose proof (check_segment_no_fetch lat lng x y) as Hcs.
  destruct (check_segment plausible lat lng x y) as [[[p' d']|e|] w];
    cbn in Hcs |- *; auto.
  destruct p'; cbn.
  - now rewrite app_nil_r.
  - specialize (IH (a + 1) false d').
    destruct (while_segments plausible fuel route lat lng (a + 1) false d')
      as [o w']. cbn in IH |- *. now rewrite fetches_app, Hcs, IH.
Qed.

(** X16: every resolution consults the store exactly once, for the
    callsign it was given, and before anything else: whatever the record
    and however many pairs are checked, the trace holds a single fetch. *)
Theorem store_consulted_exactly_once (callsign lat lng : string) :
  fetches (trace (get_route_for_callsign_lat_lng get_route plausible
                    callsign lat lng)) = [callsign]
  /\ exists w, trace (get_route_for_callsign_lat_lng get_route plausible
                        callsign lat lng) = EFetch callsign :: w.
Proof.
  rewrite resolve_shape.
  destruct (get_route callsign) as [e|route]; [cbn; eauto|].
  destruct (getitem route "airport_codes") as [e|codes]; [cbn; eauto|].
  destruct (ne_str codes "unknown"); [|cbn; eauto].
  pose proof (while_segments_no_fetch route lat lng (loop_fuel route) 0
                false (VInt 0)) as Hw.
  destruct (while_segments plausible (loop_fuel route) route lat lng 0
              false (VInt 0)) as [[[p d]|e|] w]; cbn in Hw |- *;
    rewrite ?fetches_app, Hw; cbn; eauto.
Qed.



End Fetches.

(** *** The further properties on the sample data *)

Lemma store_failure_propagates_witness :
  get_route_for_callsign_lat_lng sample_store sample_oracle "NOBODY" "1" "2"
  = (Raise (External "store unavailable"), [EFetch "NOBODY"]).
Proof.
  apply (@store_failure_propagates sample_store sample_oracle
           "NOBODY" "1" "2" (External "store unavailable")).
  reflexivity.
Defined.

Lemma missing_airport_codes_raises_witness :
  get_route_for_callsign_lat_lng sample_store2 sample_oracle
    "CALLSIGN9" "1" "2"
  = (Raise (KeyError (VStr "airport_codes")), [EFetch "CALLSIGN9"]).
Proof.
  apply (@missing_airport_codes_raises sample_store2 sample_oracle
           "CALLSIGN9" "1" "2" route9); reflexivity.
Defined.

Lemma missing_airports_raises_witness :
  get_route_for_callsign_lat_lng sample_store2 sample_oracle
    "CALLSIGN8" "1" "2"
  = (Raise (KeyError (VStr "_airports")),
     [EFetch "CALLSIGN8"; EPrint (MsgCallsign "CALLSIGN8")]).
Proof.
  apply (@missing_airports_raises sample_store2 sample_oracle
           "CALLSIGN8" "1" "2" route8 (VStr "AAAA-BBBB")); reflexivity.
Defined.

Lemma non_list_airports_never_checked_witness :
  oracle_calls (trace (get_route_for_callsign_lat_lng sample_store2
                         sample_oracle "CALLSIGN7" "1" "2")) = []
  /\ forall r, result (get_route_for_callsign_lat_lng sample_store2
                         sample_oracle "CALLSIGN7" "1" "2") = Ret r ->
       r = dict_set "plausible" (VBool false) route7.
Proof.
  apply (@non_list_airports_never_checked sample_store2 sample_oracle
           "CALLSIGN7" "1" "2" route7 (VStr "AAAA-BBBB")
           (VStr "AAAA-BBBB")); try reflexivity.
  intros l. discriminate.
Defined.

Lemma true_verdict_backed_by_oracle_witness :
  exists c d,
    nth_error (oracle_calls (trace (get_route_for_callsign_lat_lng
                                      sample_store sample_oracle
                                      "CALLSIGN1" "1" "2")))
      (List.length (oracle_calls (trace (get_route_for_callsign_lat_lng
                                           sample_store sample_oracle
                                           "CALLSIGN1" "1" "2"))) - 1)
    = Some c
    /\ sample_oracle c = inr (true, d).
Proof.
  apply (@true_verdict_backed_by_oracle sample_store sample_oracle
           "CALLSIGN1" "1" "2" route1
           (route1 ++ [("plausible", VBool true)])%list);
    vm_compute; reflexivity.
Defined.

Lemma false_verdict_means_no_plausible_answer_witness :
  exists d, sample_oracle (call_AB "1" "2") = inr (false, d).
Proof.
  apply (@false_verdict_means_no_plausible_answer sample_store sample_oracle
           "CALLSIGN3" "1" "2" route3
           (route3 ++ [("plausible", VBool false)])%list (call_AB "1" "2"));
    try (vm_compute; reflexivity).
  vm_compute. left. reflexivity.
Defined.

Lemma first_plausible_pair_decides_witness :
  result (get_route_for_callsign_lat_lng sample_store2 sample_oracle
            "CALLSIGN6" "1" "2")
  = Ret (dict_set "plausible" (VBool true) route6)
  /\ List.length (oracle_calls (trace (get_route_for_callsign_lat_lng
                                         sample_store2 sample_oracle
                                         "CALLSIGN6" "1" "2"))) = 1%nat
  /\ exists w, trace (get_route_for_callsign_lat_lng sample_store2
                        sample_oracle "CALLSIGN6" "1" "2")
               = (w ++ [EPrint MsgOk])%list.
Proof.
  apply (@first_plausible_pair_decides sample_store2 sample_oracle
           "CALLSIGN6" "1" "2" route6 (VStr "BBBB-CCCC-?")
           [airportB; airportC; VNone] 0%nat airportB airportC (VInt 2));
    try reflexivity.
  - intros i A B Hi. lia.
  - exists (call_BC "1" "2"). split; reflexivity.
Defined.

Lemma malformed_pair_raises_witness :
  result (get_route_for_callsign_lat_lng sample_store2 sample_oracle
            "CALLSIGN5" "1" "2") = Raise (KeyError (VStr "lat"))
  /\ List.length (oracle_calls (trace (get_route_for_callsign_lat_lng
                                         sample_store2 sample_oracle
                                         "CALLSIGN5" "1" "2"))) = 1%nat.
Proof.
  apply (@malformed_pair_raises sample_store2 sample_oracle
           "CALLSIGN5" "1" "2" route5 (VStr "AAAA-BBBB-DDDD")
           [airportA; airportB; airportNoLat] 1%nat airportB airportNoLat
           (KeyError (VStr "lat"))); try reflexivity.
  intros [|i] A B Hi HA HB; [|lia].
  cbn in HA, HB. injection HA as <-. injection HB as <-.
  exists (VInt 150), (call_AB "1" "2"). split; reflexivity.
Defined.

Lemma verdict_iff_some_pair_plausible_witness :
  exists b,
    result (get_route_for_callsign_lat_lng sample_store sample_oracle
              "CALLSIGN1" "1" "2")
    = Ret (dict_set "plausible" (VBool b) route1)
    /\ (b = true
        <-> exists i A B d,
              nth_error [airportA; airportB; airportC] i = Some A
              /\ nth_error [airportA; airportB; airportC] (S i) = Some B
              /\ oracle_says sample_oracle "1" "2" A B true d).
Proof.
  apply (@verdict_iff_some_pair_plausible sample_store sample_oracle
           "CALLSIGN1" "1" "2" route1 (VStr "AAAA-BBBB-CCCC")
           [airportA; airportB; airportC]); try reflexivity.
  intros [|[|i]] A B HA HB; cbn in HA, HB.
  - injection HA as <-. injection HB as <-.
    exists false, (VInt 150), (call_AB "1" "2"). split; reflexivity.
  - injection HA as <-. injection HB as <-.
    exists true, (VInt 2), (call_BC "1" "2"). split; reflexivity.
  - destruct i; discriminate.
Defined.

Lemma stale_verdict_is_overwritten_witness :
  let m := get_route_for_callsign_lat_lng sample_store sample_oracle
             "CALLSIGN3" "1" "2" in
  let m' := get_route_for_callsign_lat_lng stale_store sample_oracle
              "CALLSIGN3" "1" "2" in
  trace m' = trace m
  /\ match result m, result m' with
     | Ret r, Ret r' =>
         (forall k, dict_get k r' = dict_get k r)
         /\ exists b, r = dict_set "plausible" (VBool b) route3
                      /\ r' = dict_set "plausible" (VBool b) route3_stale
     | Raise e, Raise e' => e = e'
     | _, _ => False
     end.
Proof.
  apply (@stale_verdict_is_overwritten sample_store sample_oracle stale_store
           "CALLSIGN3" "1" "2" route3 route3_stale (VStr "AAAA-BBBB"));
    try reflexivity.
  intros k Hk. cbn [route3 route3_stale dict_get].
  destruct (String.eqb k "callsign"); [reflexivity|].
  destruct (String.eqb_spec k "plausible"); [contradiction | reflexivity].
Defined.

Lemma plausible_key_position_witness :
  dict_keys (route3 ++ [("plausible", VBool false)])%list
  = if has_key "plausible" route3 then dict_keys route3
    else (dict_keys route3 ++ ["plausible"])%list.
Proof.
  apply (@plausible_key_position sample_store sample_oracle
           "CALLSIGN3" "1" "2" route3
           (route3 ++ [("plausible", VBool false)])%list
           (VStr "AAAA-BBBB")); vm_compute; reflexivity.
Defined.

Lemma position_passed_verbatim_witness :
  pos_lat (call_AB "51.5" "-0.4") = "51.5"
  /\ pos_lng (call_AB "51.5" "-0.4") = "-0.4".
Proof.
  apply (@position_passed_verbatim sample_store sample_oracle
           "CALLSIGN1" "51.5" "-0.4" (call_AB "51.5" "-0.4")).
  vm_compute. left. reflexivity.
Defined.

Lemma route3_extends_route_witness :
  exists resp,
    api_route sample_store "CALLSIGN1" = (Ret resp, [EFetch "CALLSIGN1"])
    /\ [("Access-Control-Allow-Origin", "*")] = headers resp
    /\ forall k, k <> "plausible" ->
         dict_get k (route1 ++ [("plausible", VBool true)])%list
         = dict_get k (content resp).
Proof.
  apply (@route3_extends_route sample_store sample_oracle
           "CALLSIGN1" "1" "2"
           (mkResponse (route1 ++ [("plausible", VBool true)])%list
              [("Access-Control-Allow-Origin", "*")])).
  vm_compute. reflexivity.
Defined.

Lemma batch_is_sequence_of_single_resolutions_witness :
  exists resp,
    result (api_routeset sample_store sample_oracle mixed_batch) = Ret resp
    /\ (forall i q, nth_error (planes mixed_batch) i = Some q ->
          exists r,
            nth_error (content resp) i = Some r
            /\ result (api_route3 sample_store sample_oracle
                         (callsign q) (lat q) (lng q))
               = Ret (mkResponse r (headers resp)))
    /\ trace (api_routeset sample_store sample_oracle mixed_batch)
       = EPrint (MsgPlaneList mixed_batch)
           :: flat_map (fun q => trace (api_route3 sample_store sample_oracle
                                          (callsign q) (lat q) (lng q)))
                (planes mixed_batch)
    /\ oracle_calls (trace (api_routeset sample_store sample_oracle
                              mixed_batch))
       = flat_map (fun q => oracle_calls
                              (trace (api_route3 sample_store sample_oracle
                                        (callsign q) (lat q) (lng q))))
           (planes mixed_batch).
Proof.
  apply (@batch_is_sequence_of_single_resolutions sample_store sample_oracle
           mixed_batch).
  intros q [<-|[<-|[<-|[]]]]; eexists; vm_compute; reflexivity.
Defined.



(** *** What the oracle is handed for a coordinate *)

Lemma round_half_even_tie (num den : N) :
  den <> 0%N ->
  (2 * (round_half_even num den * den) = 2 * num + den
   \/ 2 * num = 2 * (round_half_even num den * den) + den)%N ->
  N.even (round_half_even num den) = true.
Proof.
  intros Hden. unfold round_half_even.
  pose proof (N.div_mod num den Hden) as Hdm.
  pose proof (N.mod_lt num den Hden) as Hlt.
  set (q := (num / den)%N) in *. set (r := (num mod den)%N) in *.
  clearbody q r.
  destruct (N.compare_spec (2 * r) den) as [He|Hl|Hg].
  - intros _. destruct (N.even q) eqn:Hq; [exact Hq|].
    rewrite N.add_1_r, N.even_succ, <- N.negb_even, Hq. reflexivity.
  - intros [H|H]; nia.
  - intros [H|H]; nia.
Qed.

Lemma scaled5_nearest (m : N) (e : Z) :
  nearest_hundred_thousandths m e (scaled5 m e).
Proof.
  unfold nearest_hundred_thousandths.
  destruct e as [|p|p]; cbn [scaled5 dyadic_num dyadic_den].
  - set (x := (2 ^ Z.to_N 0)%N). clearbody x.
    repeat split; try nia; try (intros [H|H]; nia).
  - set (x := (2 ^ Z.to_N (Z.pos p))%N). clearbody x.
    repeat split; try nia; try (intros [H|H]; nia).
  - assert (Hden : (2 ^ N.pos p)%N <> 0%N)
      by (apply N.pow_nonzero; discriminate).
    destruct (round_half_even_nearest (m * 100000) Hden) as [H1 H2].
    repeat split; auto. apply round_half_even_tie; exact Hden.
Qed.

Lemma py_format_5f_coordinate_text (v : pyval) (s : string) :
  py_format_5f v = inr s -> coordinate_text v s.
Proof.
  intros H. unfold coordinate_text.
  split; [exact H|]. split; [now apply py_format_5f_digits|]. split.
  { intros neg m e ->. exists (scaled5 m e). split; [apply scaled5_nearest|].
    cbn [py_format_5f] in H. unfold format_5f in H. congruence. }
  split.
  - intros ->. cbn in H. congruence.
  - intros neg ->. cbn in H. congruence.
Qed.

Section Coordinates.

Variable get_route : string -> exn + pydict.
Variable plausible : check_args -> exn + (bool * pyval).

(** C6, as the code has it: every call of the oracle made by a resolution
    is made for two consecutive airports of the fetched chain, gets the
    position as given, and gets each of the four coordinates as the text
    [.5f] renders it to.  For a coordinate that is a number that text has
    exactly five fractional digits, and for a finite float it is the
    value rounded to the nearest 0.00001 (ties to even); a NaN or an
    infinity is handed over as [nan], [inf] or [-inf]. *)
Theorem coordinates_passed_as_5f_text
  (callsign lat lng : string) (c : check_args) :
  In c (oracle_calls (trace (get_route_for_callsign_lat_lng get_route
                               plausible callsign lat lng))) ->
  exists route airports i A B la lo lb lob,
    get_route callsign = inr route
    /\ dict_get "_airports" route = Some (VList airports)
    /\ nth_error airports i = Some A /\ nth_error airports (S i) = Some B
    /\ subscript_str A "lat" = inr la /\ coordinate_text la (a_lat c)
    /\ subscript_str A "lon" = inr lo /\ coordinate_text lo (a_lon c)
    /\ subscript_str B "lat" = inr lb /\ coordinate_text lb (b_lat c)
    /\ subscript_str B "lon" = inr lob /\ coordinate_text lob (b_lon c)
    /\ pos_lat c = lat /\ pos_lng c = lng.
Proof.
  intros Hin.
  destruct (@resolve_cases get_route plausible callsign lat lng)
    as [[H0 _]|(route & codes & airports & Hs & Hc & Hk & Ha & _)].
  { rewrite H0 in Hin. contradiction. }
  apply getitem_inr in Hc, Ha.
  destruct (@resolve_known_walked get_route plausible callsign lat lng
              route codes airports Hs Hc Hk Ha) as (rw & Hw & _ & _).
  destruct (In_nth_error _ _ Hin) as [i Hi].
  destruct (walked_segments Hw _ Hi) as (A & B & HA & HB & Hp).
  apply prepared_segment_args in Hp.
  destruct (segment_args_inv _ _ _ _ Hp)
    as (Hlat & Hlng & la & lo & lb & lob
        & H1 & F1 & H2 & F2 & H3 & F3 & H4 & F4).
  exists route, airports, i, A, B, la, lo, lb, lob.
  repeat split; auto using py_format_5f_coordinate_text;
    now apply py_format_5f_coordinate_text.
Qed.

End Coordinates.

Lemma coordinates_passed_as_5f_text_witness :
  let c := call_LHR_JFK "1" "2" in
  exists route airports i A B la lo lb lob,
    sample_store3 "CALLSIGN11" = inr route
    /\ dict_get "_airports" route = Some (VList airports)
    /\ nth_error airports i = Some A /\ nth_error airports (S i) = Some B
    /\ subscript_str A "lat" = inr la /\ coordinate_text la (a_lat c)
    /\ subscript_str A "lon" = inr lo /\ coordinate_text lo (a_lon c)
    /\ subscript_str B "lat" = inr lb /\ coordinate_text lb (b_lat c)
    /\ subscript_str B "lon" = inr lob /\ coordinate_text lob (b_lon c)
    /\ pos_lat c = "1" /\ pos_lng c = "2".
Proof.
  apply (@coordinates_passed_as_5f_text sample_store3 sample_oracle
           "CALLSIGN11" "1" "2" (call_LHR_JFK "1" "2")).
  vm_compute. left. reflexivity.
Defined.

(** C6 as stated fails: on a chain whose second airport has a NaN for
    latitude the oracle is called, and the latitude it gets is the word
    [nan], which has no fractional digits. *)
Lemma nan_coordinate_passed_without_digits :
  let m := get_route_for_callsign_lat_lng sample_store3 sample_oracle
             "CALLSIGN10" "1" "2" in
  oracle_calls (trace m) = [call_A_NaN "1" "2"]
  /\ five_fraction_digits (b_lat (call_A_NaN "1" "2")) = false
  /\ ~ (forall c, In c (oracle_calls (trace m)) ->
          five_fraction_digits (a_lat c) = true
          /\ five_fraction_digits (a_lon c) = true
          /\ five_fraction_digits (b_lat c) = true
          /\ five_fraction_digits (b_lon c) = true).
Proof.
  split; [vm_compute; reflexivity|]. split; [reflexivity|].
  intros H.
  destruct (H (call_A_NaN "1" "2")) as (_ & _ & Hb & _).
  - vm_compute. left. reflexivity.
  - vm_compute in Hb. discriminate.
Qed.

(** A text of one character has length one, whatever its bytes, so a
    record whose [_airports] is such a text is not walked at all. *)
Example one_character_text :
  py_len (VStr euro) = inr 1
  /\ py_len (VStr "AAAA-BBBB") = inr 9
  /\ get_route_for_callsign_lat_lng text_store sample_oracle
       "CALLSIGN12" "1" "2"
     = (Ret (route12 ++ [("plausible", VBool false)])%list,
        [EFetch "CALLSIGN12"; EPrint (MsgCallsign "CALLSIGN12");
         EPrint (MsgImplausible "1" "2" (VInt 0))]).
Proof. repeat split; vm_compute; reflexivity. Qed.
